(** * Out-of-office redirects: a model of [outOfOffice.handler.ts]

    The three tRPC handlers [outOfOfficeCreate], [outOfOfficeEntryDelete] and
    [outOfOfficeEntriesList] are embedded as functions over an explicit
    database state.  Instants are milliseconds since the epoch ([Z]); the
    Prisma queries are list operations over the tables; a thrown [TRPCError]
    is the left summand of the handler's result. *)

From Stdlib Require Import ZArith List String Bool Lia.
From Stdlib Require Import Sorting.Sorted Sorting.Permutation.
Import ListNotations.
Open Scope Z_scope.

(** ** dayjs on a server with a fixed UTC offset *)

Module Dayjs.

Definition MS_PER_MINUTE : Z := 60000.
Definition MS_PER_DAY : Z := 86400000.

Section Zone.
(** The server's zone, as [utcOffset()] reports it: minutes east of UTC.
    The zone is taken to have one offset at every instant (no
    daylight-saving change); dayjs itself takes the offset in force at each
    instant, so in a zone that changes its offset a local day can be 23 or
    25 hours long, where a day of this section always has [MS_PER_DAY]
    milliseconds. *)
Variable tz : Z.

Definition utcOffset (t : Z) : Z := tz.

(** [d.startOf("day")]: local midnight of the local day that holds [t]. *)
Definition startOfDay (t : Z) : Z :=
  t - (t + tz * MS_PER_MINUTE) mod MS_PER_DAY.

(** [d.endOf("day")]: 23:59:59.999 of that local day. *)
Definition endOfDay (t : Z) : Z :=
  startOfDay t + (MS_PER_DAY - 1).
End Zone.

(** [d.subtract(n, "minute")] *)
Definition subtractMinutes (t n : Z) : Z := t - n * MS_PER_MINUTE.

Definition isAfter (a b : Z) : bool := b <? a.
Definition isBefore (a b : Z) : bool := a <? b.

End Dayjs.
Import Dayjs.

(** ** Tables *)

Record User := mkUser {
  user_id : Z;
  user_email : string;
  user_username : option string
}.

Record OutOfOfficeEntry := mkEntry {
  id : Z;
  uuid : string;
  start : Z;
  end_ : Z;
  userId : Z;
  toUserId : option Z;
  createdAt : Z;
  updatedAt : Z
}.

(** What [sendBookingRedirectNotification] is called with; [dates] keeps the
    two instants that the handler formats. *)
Record Notification := mkNotification {
  language : string;
  fromEmail : string;
  toEmail : string;
  toName : string;
  dates : Z * Z
}.

Record World := mkWorld {
  users : list User;
  entries : list OutOfOfficeEntry;
  nextId : Z;
  outbox : list Notification
}.

(** ** Requests *)

Record SessionUser := mkSession {
  ctx_id : Z;
  ctx_email : string;
  ctx_username : option string;
  ctx_locale : option string
}.

(** [startDate] and [endDate] are the instants that [dayjs(...)] reads from
    the request; [None] stands for a missing or empty field.  A field that
    [dayjs] cannot read as a date is not modelled. *)
Record TOutOfOfficeInputSchema := mkInput {
  startDate : option Z;
  endDate : option Z;
  toTeamUserId : option Z
}.

Record TOutOfOfficeDelete := mkDelete {
  outOfOfficeUid : option string
}.

(** What a call reads from outside the database: the clock (one reading
    for the whole call), the server's zone and the identifier [uuidv4()]
    returns. *)
Record Env := mkEnv {
  now : Z;
  tz : Z;
  uuidv4 : string
}.

(** JavaScript truthiness of the fields the handlers test. *)
Definition truthyNum (o : option Z) : bool :=
  match o with
  | Some n => negb (n =? 0)
  | None => false
  end.

Definition truthyStr (o : option string) : bool :=
  match o with
  | Some s => negb (String.eqb s EmptyString)
  | None => false
  end.

(** ** Errors and the handler monad *)

Inductive TRPCCode := BAD_REQUEST | NOT_FOUND | CONFLICT | INTERNAL_SERVER_ERROR.

Record TRPCError := mkError {
  code : TRPCCode;
  message : string
}.

(** A handler runs on a database state and hands back the state it leaves,
    with either the thrown error or the returned value. *)
Definition Handler (A : Type) : Type := World -> (TRPCError + A) * World.

Definition ret {A} (a : A) : Handler A := fun w => (inr a, w).

Definition throw {A} (c : TRPCCode) (m : string) : Handler A :=
  fun w => (inl (mkError c m), w).

Definition bind {A B} (m : Handler A) (k : A -> Handler B) : Handler B :=
  fun w =>
    match m w with
    | (inl e, w') => (inl e, w')
    | (inr a, w') => k a w'
    end.

Definition gets {A} (f : World -> A) : Handler A := fun w => (inr (f w), w).

Definition modify (f : World -> World) : Handler unit := fun w => (inr tt, f w).

Declare Scope handler_scope.
Delimit Scope handler_scope with handler.
Notation "x <- m ;; k" := (bind m (fun x => k))
  (at level 61, m at next level, right associativity) : handler_scope.
Notation "m ;;; k" := (bind m (fun _ => k))
  (at level 61, right associativity) : handler_scope.
Open Scope handler_scope.

(** ** Prisma *)

Module Prisma.

Definition optZ_eqb (a : option Z) (b : Z) : bool :=
  match a with
  | Some x => x =? b
  | None => false
  end.

(** [User.id] is a 32-bit signed integer column. *)
Definition INT4_MIN : Z := - 2147483648.
Definition INT4_MAX : Z := 2147483647.

Definition fitsInt4 (i : Z) : bool := (INT4_MIN <=? i) && (i <=? INT4_MAX).

(** [prisma.user.findUnique({ where: { id } })].  A stored id fits the
    column, so a row that is found has an id that fits; an [id] that does
    not fit is held by no row, and Prisma refuses the query (P2020,
    surfaced as an internal error) instead of answering [null]. *)
Definition user_findUnique (i : Z) : Handler (option User) :=
  fun w =>
    match find (fun u => user_id u =? i) (users w) with
    | Some u => (inr (Some u), w)
    | None =>
        if fitsInt4 i then (inr None, w)
        else (inl (mkError INTERNAL_SERVER_ERROR "value_out_of_range_for_int"), w)
    end.

(** [prisma.user.findFirst({ where: { id } })] *)
Definition user_findFirst (i : Z) : Handler (option User) :=
  gets (fun w => find (fun u => user_id u =? i) (users w)).

(** [prisma.outOfOfficeEntry.findFirst({ where })] *)
Definition entry_findFirst (where_ : OutOfOfficeEntry -> bool)
  : Handler (option OutOfOfficeEntry) :=
  gets (fun w => find where_ (entries w)).

(** [prisma.outOfOfficeEntry.create({ data })]: the store gives the row its
    [id]; [uuid] is a unique column, so a second row with a [uuid] already
    in the table is refused.  The refused insert has drawn its [id] all the
    same: the sequence does not go back. *)
Definition entry_create (u : string) (s e : Z) (owner : Z) (to : option Z)
    (created updated : Z) : Handler OutOfOfficeEntry :=
  fun w =>
    if existsb (fun x => String.eqb (uuid x) u) (entries w)
    then (inl (mkError INTERNAL_SERVER_ERROR "unique_constraint_failed"),
          mkWorld (users w) (entries w) (nextId w + 1) (outbox w))
    else
      let row := mkEntry (nextId w) u s e owner to created updated in
      (inr row,
       mkWorld (users w) (entries w ++ [row]) (nextId w + 1) (outbox w)).

(** [prisma.outOfOfficeEntry.delete({ where: { uuid } })]: refused when no
    row has that [uuid]. *)
Definition entry_delete (u : string) : Handler unit :=
  fun w =>
    if existsb (fun x => String.eqb (uuid x) u) (entries w)
    then (inr tt,
          mkWorld (users w)
                  (filter (fun x => negb (String.eqb (uuid x) u)) (entries w))
                  (nextId w) (outbox w))
    else (inl (mkError INTERNAL_SERVER_ERROR "record_to_delete_does_not_exist"), w).

End Prisma.

(** ** The collaborators awaited after the insert

    Line 151-170 awaits [prisma.user.findFirst], [getTranslation] and
    [sendBookingRedirectNotification] with nothing to catch what they throw.
    For each, [Some e] says that the call throws [e], [None] that it
    returns. *)
Record Collaborators := mkCollaborators {
  findFirstError : Z -> option TRPCError;
  getTranslationError : string -> option TRPCError;
  sendError : Notification -> option TRPCError
}.

(** Collaborators that always return. *)
Definition reliable : Collaborators :=
  mkCollaborators (fun _ => None) (fun _ => None) (fun _ => None).

Definition attempt (o : option TRPCError) : Handler unit :=
  match o with
  | Some e => fun w => (inl e, w)
  | None => ret tt
  end.

(** [sendBookingRedirectNotification(...)] *)
Definition sendBookingRedirectNotification (c : Collaborators) (n : Notification)
    : Handler unit :=
  attempt (sendError c n) ;;;
  modify (fun w => mkWorld (users w) (entries w) (nextId w) (outbox w ++ [n])).

(** ** The where-clauses of [outOfOfficeCreate] *)

(** Lines 65-95: the caller's own entries that collide with the new window. *)
Definition conflictWhere (caller : Z) (inputStartTime inputEndTime : Z)
    (x : OutOfOfficeEntry) : bool :=
  (userId x =? caller)
  && (   ((start x <? inputEndTime) && (end_ x >? inputStartTime))
      || ((start x >? inputStartTime) && (start x <? inputEndTime))
      || ((end_ x >? inputStartTime) && (end_ x <? inputEndTime))).

(** Lines 109-129: entries that redirect to the caller during the new
    window.  Prisma leaves a filter whose value is [undefined] out of the
    query, so the owner is compared only when a delegate was resolved. *)
Definition redirectBackWhere (toUser : option Z) (caller : Z)
    (inputStartTime inputEndTime : Z) (x : OutOfOfficeEntry) : bool :=
  match toUser with
  | Some d => userId x =? d
  | None => true
  end
  && Prisma.optZ_eqb (toUserId x) caller
  && (   ((start x <=? inputEndTime) && (end_ x >=? inputStartTime))
      || ((start x >=? inputStartTime) && (end_ x <=? inputEndTime))).

(** ** [outOfOfficeCreate] *)

Definition orElse {A} (o : option A) (d : A) : A :=
  match o with
  | Some a => a
  | None => d
  end.

(** Lines 46-61. *)
Definition resolveDelegate (input : TOutOfOfficeInputSchema) : Handler (option Z) :=
  if truthyNum (toTeamUserId input) then
    user <- Prisma.user_findUnique (orElse (toTeamUserId input) 0) ;;
    match user with
    | None => throw NOT_FOUND "user_not_found"
    | Some u => ret (Some (user_id u))
    end
  else ret None.

(** Lines 149-171. *)
Definition notifyDelegateWith (c : Collaborators) (ctx : SessionUser)
    (toUser : option Z) (createdRedirect : OutOfOfficeEntry) : Handler unit :=
  if truthyNum toUser then
    attempt (findFirstError c (orElse toUser 0)) ;;;
    userToNotify <- Prisma.user_findFirst (orElse toUser 0) ;;
    attempt (getTranslationError c (orElse (ctx_locale ctx) "en"%string)) ;;;
    let t := orElse (ctx_locale ctx) "en"%string in
    match userToNotify with
    | Some u =>
        if truthyStr (Some (user_email u)) then
          sendBookingRedirectNotification c
            (mkNotification t (ctx_email ctx) (user_email u)
               (orElse (ctx_username ctx) EmptyString)
               (start createdRedirect, end_ createdRedirect))
        else ret tt
    | None => ret tt
    end
  else ret tt.

(** Lines 149-171 when the three awaits return. *)
Definition notifyDelegate (ctx : SessionUser) (toUser : option Z)
    (createdRedirect : OutOfOfficeEntry) : Handler unit :=
  notifyDelegateWith reliable ctx toUser createdRedirect.

(** The instant line 38-40 compares the new start with. *)
Definition earliestStart (env : Env) (offset : Z) : Z :=
  subtractMinutes (startOfDay (tz env) (now env)) (Z.abs offset * 60).

(** The handler, for given collaborators. *)
Definition outOfOfficeCreateWith (c : Collaborators) (env : Env) (ctx : SessionUser)
    (input : TOutOfOfficeInputSchema) : Handler unit :=
  match startDate input, endDate input with
  | Some sd, Some ed =>
      let inputStartTime := startOfDay (tz env) sd in
      let inputEndTime := endOfDay (tz env) ed in
      let offset := utcOffset (tz env) inputStartTime in
      if isAfter inputStartTime inputEndTime then
        throw BAD_REQUEST "start_date_must_be_before_end_date"
      else if isBefore inputStartTime (earliestStart env offset) then
        throw BAD_REQUEST "start_date_must_be_in_the_future"
      else
        toUser <- resolveDelegate input ;;
        outOfOfficeEntry <-
          Prisma.entry_findFirst
            (conflictWhere (ctx_id ctx) inputStartTime inputEndTime) ;;
        match outOfOfficeEntry with
        | Some _ => throw CONFLICT "out_of_office_entry_already_exists"
        | None =>
            existingOutOfOfficeEntry <-
              Prisma.entry_findFirst
                (redirectBackWhere toUser (ctx_id ctx) inputStartTime inputEndTime) ;;
            match existingOutOfOfficeEntry with
            | Some _ => throw BAD_REQUEST "booking_redirect_infinite_not_allowed"
            | None =>
                createdRedirect <-
                  Prisma.entry_create (uuidv4 env)
                    (startOfDay (tz env) sd) (endOfDay (tz env) ed)
                    (ctx_id ctx) toUser (now env) (now env) ;;
                notifyDelegateWith c ctx toUser createdRedirect ;;;
                ret tt
            end
        end
  | _, _ => throw BAD_REQUEST "start_date_and_end_date_required"
  end.

(** The handler when the three awaits after the insert return. *)
Definition outOfOfficeCreate (env : Env) (ctx : SessionUser)
    (input : TOutOfOfficeInputSchema) : Handler unit :=
  outOfOfficeCreateWith reliable env ctx input.

(** ** [outOfOfficeEntryDelete] *)

Definition ownedUuidWhere (uid : string) (caller : Z) (x : OutOfOfficeEntry) : bool :=
  String.eqb (uuid x) uid && (userId x =? caller).

Definition outOfOfficeEntryDelete (ctx : SessionUser) (input : TOutOfOfficeDelete)
    : Handler unit :=
  if negb (truthyStr (outOfOfficeUid input)) then
    throw BAD_REQUEST "out_of_office_id_required"
  else
    let uid := orElse (outOfOfficeUid input) EmptyString in
    outOfOfficeEntry <- Prisma.entry_findFirst (ownedUuidWhere uid (ctx_id ctx)) ;;
    match outOfOfficeEntry with
    | None => throw NOT_FOUND "booking_redirect_not_found"
    | Some _ =>
        Prisma.entry_delete uid ;;;
        ret tt
    end.

(** ** [outOfOfficeEntriesList] *)

Record ToUserSelect := mkToUser {
  username : option string
}.

(** The columns the query selects. *)
Record ListedEntry := mkListed {
  l_id : Z;
  l_uuid : string;
  l_start : Z;
  l_end : Z;
  l_toUserId : option Z;
  l_toUser : option ToUserSelect
}.

Definition listWhere (caller : Z) (nowIso : Z) (x : OutOfOfficeEntry) : bool :=
  (userId x =? caller) && (end_ x >=? nowIso).

(** [orderBy: { start: "desc" }], rows with equal [start] kept in table
    order. *)
Fixpoint insertDesc (x : OutOfOfficeEntry) (l : list OutOfOfficeEntry)
    : list OutOfOfficeEntry :=
  match l with
  | [] => [x]
  | y :: l' => if start y <=? start x then x :: y :: l' else y :: insertDesc x l'
  end.

Fixpoint orderByStartDesc (l : list OutOfOfficeEntry) : list OutOfOfficeEntry :=
  match l with
  | [] => []
  | x :: l' => insertDesc x (orderByStartDesc l')
  end.

(** The relation [toUser] of a row: the user [toUserId] names, if any. *)
Definition selectToUser (us : list User) (x : OutOfOfficeEntry) : option ToUserSelect :=
  match toUserId x with
  | Some d =>
      match find (fun u => user_id u =? d) us with
      | Some u => Some (mkToUser (user_username u))
      | None => None
      end
  | None => None
  end.

Definition selectListed (us : list User) (x : OutOfOfficeEntry) : ListedEntry :=
  mkListed (id x) (uuid x) (start x) (end_ x) (toUserId x) (selectToUser us x).

Definition entry_findMany (env : Env) (caller : Z) (w : World) : list OutOfOfficeEntry :=
  orderByStartDesc (filter (listWhere caller (now env)) (entries w)).

Definition outOfOfficeEntriesList (env : Env) (ctx : SessionUser)
    : Handler (list ListedEntry) :=
  gets (fun w => map (selectListed (users w)) (entry_findMany env (ctx_id ctx) w)).

(** ** Calendar dates for the worked examples

    [utcDate y m d] is midnight UTC of the civil date, in milliseconds
    (the usual days-from-civil count); [utcTime] adds hours and minutes. *)

Definition daysFromCivil (y m d : Z) : Z :=
  let y' := if m <=? 2 then y - 1 else y in
  let era := y' / 400 in
  let yoe := y' - era * 400 in
  let mp := if m >? 2 then m - 3 else m + 9 in
  let doy := (153 * mp + 2) / 5 + d - 1 in
  let doe := yoe * 365 + yoe / 4 - yoe / 100 + doy in
  era * 146097 + doe - 719468.

Definition utcDate (y m d : Z) : Z := daysFromCivil y m d * MS_PER_DAY.

Definition utcTime (y m d hh mm : Z) : Z :=
  utcDate y m d + hh * 3600000 + mm * MS_PER_MINUTE.

(** ** Windows as the specification names them *)

(** The single strict test: the row starts before the new window ends and
    ends after it starts. *)
Definition strictOverlap (inputStartTime inputEndTime : Z) (x : OutOfOfficeEntry) : bool :=
  (start x <? inputEndTime) && (end_ x >? inputStartTime).

(** A stored window is well formed when it does not end before it starts. *)
Definition wellFormed (x : OutOfOfficeEntry) : Prop := start x <= end_ x.

(** The database's key constraints: [uuid] and [id] are unique columns, and
    the store has not yet handed out [nextId] or anything above it. *)
Definition storeOk (w : World) : Prop :=
  NoDup (map uuid (entries w))
  /\ NoDup (map id (entries w))
  /\ Forall (fun x => id x < nextId w) (entries w).

(** The row that line 137-147 inserts. *)
Definition createdRow (env : Env) (ctx : SessionUser) (w : World)
    (sd ed : Z) (to : option Z) : OutOfOfficeEntry :=
  mkEntry (nextId w) (uuidv4 env) (startOfDay (tz env) sd) (endOfDay (tz env) ed)
    (ctx_id ctx) to (now env) (now env).

(** The call, check by check: what each outcome tells about the request and
    the tables. *)
Inductive CreateOutcome (env : Env) (ctx : SessionUser)
    (input : TOutOfOfficeInputSchema) (w : World)
  : (TRPCError + unit) * World -> Prop :=
| DatesRequired :
    (startDate input = None \/ endDate input = None) ->
    CreateOutcome env ctx input w
      (inl (mkError BAD_REQUEST "start_date_and_end_date_required"), w)
| StartAfterEnd sd ed :
    startDate input = Some sd -> endDate input = Some ed ->
    endOfDay (tz env) ed < startOfDay (tz env) sd ->
    CreateOutcome env ctx input w
      (inl (mkError BAD_REQUEST "start_date_must_be_before_end_date"), w)
| StartInPast sd ed :
    startDate input = Some sd -> endDate input = Some ed ->
    startOfDay (tz env) sd <= endOfDay (tz env) ed ->
    startOfDay (tz env) sd < earliestStart env (tz env) ->
    CreateOutcome env ctx input w
      (inl (mkError BAD_REQUEST "start_date_must_be_in_the_future"), w)
| DelegateNotFound sd ed n :
    startDate input = Some sd -> endDate input = Some ed ->
    startOfDay (tz env) sd <= endOfDay (tz env) ed ->
    earliestStart env (tz env) <= startOfDay (tz env) sd ->
    toTeamUserId input = Some n -> n <> 0 ->
    find (fun u => user_id u =? n) (users w) = None ->
    Prisma.fitsInt4 n = true ->
    CreateOutcome env ctx input w
      (inl (mkError NOT_FOUND "user_not_found"), w)
| DelegateIdRefused sd ed n :
    startDate input = Some sd -> endDate input = Some ed ->
    startOfDay (tz env) sd <= endOfDay (tz env) ed ->
    earliestStart env (tz env) <= startOfDay (tz env) sd ->
    toTeamUserId input = Some n -> n <> 0 ->
    find (fun u => user_id u =? n) (users w) = None ->
    Prisma.fitsInt4 n = false ->
    CreateOutcome env ctx input w
      (inl (mkError INTERNAL_SERVER_ERROR "value_out_of_range_for_int"), w)
| OwnConflict sd ed to x :
    startDate input = Some sd -> endDate input = Some ed ->
    startOfDay (tz env) sd <= endOfDay (tz env) ed ->
    earliestStart env (tz env) <= startOfDay (tz env) sd ->
    resolveDelegate input w = (inr to, w) ->
    find (conflictWhere (ctx_id ctx) (startOfDay (tz env) sd) (endOfDay (tz env) ed))
      (entries w) = Some x ->
    CreateOutcome env ctx input w
      (inl (mkError CONFLICT "out_of_office_entry_already_exists"), w)
| InfiniteRedirect sd ed to x :
    startDate input = Some sd -> endDate input = Some ed ->
    startOfDay (tz env) sd <= endOfDay (tz env) ed ->
    earliestStart env (tz env) <= startOfDay (tz env) sd ->
    resolveDelegate input w = (inr to, w) ->
    find (conflictWhere (ctx_id ctx) (startOfDay (tz env) sd) (endOfDay (tz env) ed))
      (entries w) = None ->
    find (redirectBackWhere to (ctx_id ctx) (startOfDay (tz env) sd) (endOfDay (tz env) ed))
      (entries w) = Some x ->
    CreateOutcome env ctx input w
      (inl (mkError BAD_REQUEST "booking_redirect_infinite_not_allowed"), w)
| UuidTaken sd ed to :
    startDate input = Some sd -> endDate input = Some ed ->
    startOfDay (tz env) sd <= endOfDay (tz env) ed ->
    earliestStart env (tz env) <= startOfDay (tz env) sd ->
    resolveDelegate input w = (inr to, w) ->
    find (conflictWhere (ctx_id ctx) (startOfDay (tz env) sd) (endOfDay (tz env) ed))
      (entries w) = None ->
    find (redirectBackWhere to (ctx_id ctx) (startOfDay (tz env) sd) (endOfDay (tz env) ed))
      (entries w) = None ->
    existsb (fun x => String.eqb (uuid x) (uuidv4 env)) (entries w) = true ->
    CreateOutcome env ctx input w
      (inl (mkError INTERNAL_SERVER_ERROR "unique_constraint_failed"),
       mkWorld (users w) (entries w) (nextId w + 1) (outbox w))
| Created sd ed to w' :
    startDate input = Some sd -> endDate input = Some ed ->
    startOfDay (tz env) sd <= endOfDay (tz env) ed ->
    earliestStart env (tz env) <= startOfDay (tz env) sd ->
    resolveDelegate input w = (inr to, w) ->
    find (conflictWhere (ctx_id ctx) (startOfDay (tz env) sd) (endOfDay (tz env) ed))
      (entries w) = None ->
    find (redirectBackWhere to (ctx_id ctx) (startOfDay (tz env) sd) (endOfDay (tz env) ed))
      (entries w) = None ->
    existsb (fun x => String.eqb (uuid x) (uuidv4 env)) (entries w) = false ->
    users w' = users w ->
    entries w' = entries w ++ [createdRow env ctx w sd ed to] ->
    nextId w' = nextId w + 1 ->
    CreateOutcome env ctx input w (inr tt, w').

(** A request whose delegate, when one is named, is a user of the store. *)
Definition delegateKnown (input : TOutOfOfficeInputSchema) (w : World) : Prop :=
  forall n, toTeamUserId input = Some n -> n <> 0 ->
    exists u, In u (users w) /\ user_id u = n.

(** Newest start first. *)
Definition startsNoEarlier (a b : OutOfOfficeEntry) : Prop := start b <= start a.

(** ** Fixtures of the worked examples *)

Definition alice : SessionUser := mkSession 1 "alice@example.com" (Some "alice"%string) None.
Definition bob : SessionUser := mkSession 2 "bob@example.com" (Some "bob"%string) None.

Definition people : list User :=
  [ mkUser 1 "alice@example.com" (Some "alice"%string);
    mkUser 2 "bob@example.com" (Some "bob"%string) ].

(** A server on UTC, on the given morning. *)
Definition utcServer (t : Z) (u : string) : Env := mkEnv t 0 u.

(** The window [[from, to]] of whole UTC days, as a stored row. *)
Definition rowOf (i : Z) (u : string) (from to : Z) (owner : Z) (delegate : option Z)
  : OutOfOfficeEntry :=
  mkEntry i u (startOfDay 0 from) (endOfDay 0 to) owner delegate 0 0.

(** The tables after Alice, on 2024-01-05, creates 2024-01-12 to 2024-01-20
    naming Bob. *)
Definition afterAliceCreates : World :=
  Eval vm_compute in
    snd (outOfOfficeCreate (utcServer (utcTime 2024 1 5 9 0) "u-1") alice
           (mkInput (Some (utcTime 2024 1 12 14 30)) (Some (utcTime 2024 1 20 8 0)) (Some 2))
           (mkWorld people [] 1 [])).

(** ** What the tables are meant to keep *)






(** A mailer that is down. *)
Definition mailerDown : Collaborators :=
  mkCollaborators (fun _ => None) (fun _ => None)
    (fun _ => Some (mkError INTERNAL_SERVER_ERROR "smtp_connection_refused")).

(** The tables right after line 137-147, before the notification. *)
Definition afterInsert (w : World) (row : OutOfOfficeEntry) : World :=
  mkWorld (users w) (entries w ++ [row]) (nextId w + 1) (outbox w).

(** The message of line 163-169. *)
Definition redirectNotice (ctx : SessionUser) (u : User) (row : OutOfOfficeEntry)
  : Notification :=
  mkNotification (orElse (ctx_locale ctx) "en"%string) (ctx_email ctx) (user_email u)
    (orElse (ctx_username ctx) EmptyString) (start row, end_ row).

(** Carol, who has no address on file, and the three of them together. *)
Definition carol : SessionUser := mkSession 3 "carol@example.com" None (Some "de"%string).

Definition team : list User := people ++ [mkUser 3 EmptyString None].

(** * Facts *)

(** ** Days *)

Lemma startOfDay_decomp tz t :
  startOfDay tz t = MS_PER_DAY * ((t + tz * MS_PER_MINUTE) / MS_PER_DAY) - tz * MS_PER_MINUTE.
Proof.
  unfold startOfDay.
  pose proof (Z.div_mod (t + tz * MS_PER_MINUTE) MS_PER_DAY) as E.
  unfold MS_PER_DAY in *. lia.
Qed.

Lemma startOfDay_bounds tz t :
  startOfDay tz t <= t < startOfDay tz t + MS_PER_DAY.
Proof.
  unfold startOfDay.
  pose proof (Z.mod_pos_bound (t + tz * MS_PER_MINUTE) MS_PER_DAY) as B.
  unfold MS_PER_DAY in *. lia.
Qed.

Lemma startOfDay_mono tz a b : a <= b -> startOfDay tz a <= startOfDay tz b.
Proof.
  intros H. rewrite !startOfDay_decomp.
  assert ((a + tz * MS_PER_MINUTE) / MS_PER_DAY <= (b + tz * MS_PER_MINUTE) / MS_PER_DAY).
  { apply Z.div_le_mono; unfold MS_PER_DAY; lia. }
  unfold MS_PER_DAY in *. lia.
Qed.

Lemma startOfDay_idem tz t : startOfDay tz (startOfDay tz t) = startOfDay tz t.
Proof.
  rewrite (startOfDay_decomp tz t). unfold startOfDay.
  replace (MS_PER_DAY * ((t + tz * MS_PER_MINUTE) / MS_PER_DAY) - tz * MS_PER_MINUTE
           + tz * MS_PER_MINUTE)
    with (((t + tz * MS_PER_MINUTE) / MS_PER_DAY) * MS_PER_DAY) by lia.
  rewrite Z.mod_mul by (unfold MS_PER_DAY; lia). lia.
Qed.


Lemma endOfDay_bounds tz t : t <= endOfDay tz t.
Proof.
  pose proof (startOfDay_bounds tz t). unfold endOfDay. unfold MS_PER_DAY in *. lia.
Qed.

(** Two local midnights are equal or a whole day apart. *)
Lemma startOfDay_gap tz a b :
  startOfDay tz a < startOfDay tz b -> startOfDay tz a + MS_PER_DAY <= startOfDay tz b.
Proof.
  rewrite !startOfDay_decomp. unfold MS_PER_DAY. lia.
Qed.

(** The test of line 30 fires exactly when [sd] lies on a later local day
    than [ed]. *)
Lemma isAfter_normalized tz sd ed :
  isAfter (startOfDay tz sd) (endOfDay tz ed) = true
  <-> startOfDay tz ed < startOfDay tz sd.
Proof.
  unfold isAfter, endOfDay. rewrite Z.ltb_lt. split; intros H.
  - unfold MS_PER_DAY in *. lia.
  - apply startOfDay_gap in H. unfold MS_PER_DAY in *. lia.
Qed.

Lemma later_day_iff tz sd ed :
  startOfDay tz ed < startOfDay tz sd <-> startOfDay tz ed + MS_PER_DAY <= sd.
Proof.
  split; intros H.
  - apply startOfDay_gap in H. pose proof (startOfDay_bounds tz sd). lia.
  - pose proof (startOfDay_bounds tz ed) as Be.
    destruct (Z.lt_ge_cases (startOfDay tz ed) (startOfDay tz sd)) as [L|G]; [exact L|].
    pose proof (startOfDay_bounds tz sd) as Bs. lia.
Qed.

(** ** Running the handlers *)

Arguments startOfDay : simpl never.
Arguments endOfDay : simpl never.
Arguments earliestStart : simpl never.
Arguments conflictWhere : simpl never.
Arguments redirectBackWhere : simpl never.

Ltac run :=
  unfold Prisma.entry_findFirst, Prisma.user_findUnique, Prisma.user_findFirst,
    sendBookingRedirectNotification, attempt, bind, ret, throw, gets, modify in *;
  cbv beta in *.

Lemma truthyNum_true o : truthyNum o = true <-> exists n, o = Some n /\ n <> 0.
Proof.
  destruct o as [n|]; simpl.
  - rewrite negb_true_iff, Z.eqb_neq. split.
    + intros H. exists n. auto.
    + intros [m [E H]]. inversion E. subst. exact H.
  - split; [discriminate | intros [m [E _]]; discriminate].
Qed.

Lemma find_user_id us n u :
  find (fun u => user_id u =? n) us = Some u -> In u us /\ user_id u = n.
Proof.
  intros H. apply find_some in H. destruct H as [I E].
  apply Z.eqb_eq in E. auto.
Qed.

(** Lines 46-61, case by case. *)
Lemma resolveDelegate_absent input w :
  truthyNum (toTeamUserId input) = false ->
  resolveDelegate input w = (inr None, w).
Proof. intros H. unfold resolveDelegate. rewrite H. reflexivity. Qed.

Lemma resolveDelegate_found input w n u :
  toTeamUserId input = Some n -> n <> 0 ->
  find (fun u => user_id u =? n) (users w) = Some u ->
  resolveDelegate input w = (inr (Some n), w).
Proof.
  intros E N F. unfold resolveDelegate. rewrite E. simpl.
  apply Z.eqb_neq in N. rewrite N. cbv [negb]. run. rewrite F.
  apply find_user_id in F. destruct F as [_ F]. rewrite F. reflexivity.
Qed.

Lemma resolveDelegate_missing input w n :
  toTeamUserId input = Some n -> n <> 0 ->
  find (fun u => user_id u =? n) (users w) = None ->
  Prisma.fitsInt4 n = true ->
  resolveDelegate input w = (inl (mkError NOT_FOUND "user_not_found"), w).
Proof.
  intros E N F R. unfold resolveDelegate. rewrite E. simpl.
  apply Z.eqb_neq in N. rewrite N. cbv [negb]. run. rewrite F, R. reflexivity.
Qed.

Lemma resolveDelegate_refused input w n :
  toTeamUserId input = Some n -> n <> 0 ->
  find (fun u => user_id u =? n) (users w) = None ->
  Prisma.fitsInt4 n = false ->
  resolveDelegate input w
  = (inl (mkError INTERNAL_SERVER_ERROR "value_out_of_range_for_int"), w).
Proof.
  intros E N F R. unfold resolveDelegate. rewrite E. simpl.
  apply Z.eqb_neq in N. rewrite N. cbv [negb]. run. rewrite F, R. reflexivity.
Qed.

Lemma resolveDelegate_unfound input w n :
  toTeamUserId input = Some n -> n <> 0 ->
  find (fun u => user_id u =? n) (users w) = None ->
  exists e, resolveDelegate input w = (inl e, w).
Proof.
  intros E N F. destruct (Prisma.fitsInt4 n) eqn:R.
  - eexists. apply (resolveDelegate_missing input w n E N F R).
  - eexists. apply (resolveDelegate_refused input w n E N F R).
Qed.

Lemma resolveDelegate_world input w r w' :
  resolveDelegate input w = (r, w') -> w' = w.
Proof.
  unfold resolveDelegate. destruct (truthyNum (toTeamUserId input)); run.
  - destruct (find _ (users w)); [|destruct (Prisma.fitsInt4 _)];
      intros H; inversion H; reflexivity.
  - intros H; inversion H; reflexivity.
Qed.

(** On a store whose user ids all fit the column, the lookup is the range
    check followed by the search. *)
Lemma user_findUnique_checked i w :
  Forall (fun u => Prisma.fitsInt4 (user_id u) = true) (users w) ->
  Prisma.user_findUnique i w
  = if Prisma.fitsInt4 i
    then (inr (find (fun u => user_id u =? i) (users w)), w)
    else (inl (mkError INTERNAL_SERVER_ERROR "value_out_of_range_for_int"), w).
Proof.
  intros Fits. unfold Prisma.user_findUnique.
  destruct (find _ (users w)) as [u|] eqn:F.
  - apply find_user_id in F. destruct F as [I U].
    rewrite Forall_forall in Fits. rewrite <- U, (Fits u I). reflexivity.
  - destruct (Prisma.fitsInt4 i); reflexivity.
Qed.

(** What the delegate lookup can answer. *)
Lemma resolveDelegate_value input w to :
  resolveDelegate input w = (inr to, w) ->
  (to = None /\ truthyNum (toTeamUserId input) = false)
  \/ (exists n u, to = Some n /\ toTeamUserId input = Some n /\ n <> 0
        /\ In u (users w) /\ user_id u = n).
Proof.
  unfold resolveDelegate.
  destruct (truthyNum (toTeamUserId input)) eqn:T; run.
  - apply truthyNum_true in T. destruct T as [n [E N]]. rewrite E. simpl.
    destruct (find _ (users w)) as [u|] eqn:F;
      [|destruct (Prisma.fitsInt4 n)]; intros H; inversion H.
    right. apply find_user_id in F. destruct F as [I F].
    exists n, u. rewrite F. auto.
  - intros H. inversion H. left. auto.
Qed.

(** With collaborators that return, the notification does not throw and
    leaves the tables alone. *)
Lemma notifyDelegate_run ctx to row w :
  exists w', notifyDelegate ctx to row w = (inr tt, w')
    /\ users w' = users w /\ entries w' = entries w /\ nextId w' = nextId w.
Proof.
  unfold notifyDelegate, notifyDelegateWith. destruct (truthyNum to); run; simpl.
  - destruct (find _ (users w)) as [u|].
    + destruct (negb _); eexists; split; try reflexivity; auto.
    + eexists; split; try reflexivity; auto.
  - eexists; split; try reflexivity; auto.
Qed.

Lemma outOfOfficeCreate_outcome env ctx input w :
  CreateOutcome env ctx input w (outOfOfficeCreate env ctx input w).
Proof.
  unfold outOfOfficeCreate, outOfOfficeCreateWith.
  destruct (startDate input) as [sd|] eqn:Es;
    [destruct (endDate input) as [ed|] eqn:Ee|];
    try (apply DatesRequired; auto; fail).
  cbv zeta. unfold utcOffset.
  destruct (isAfter _ _) eqn:A.
  { unfold isAfter in A. apply Z.ltb_lt in A. eapply StartAfterEnd; eauto. }
  unfold isAfter in A. apply Z.ltb_ge in A.
  destruct (isBefore _ _) eqn:B.
  { unfold isBefore in B. apply Z.ltb_lt in B. eapply StartInPast; eauto. }
  unfold isBefore in B. apply Z.ltb_ge in B.
  unfold bind at 1.
  destruct (resolveDelegate input w) as [[e|to] w1] eqn:R.
  { pose proof (resolveDelegate_world _ _ _ _ R) as ->.
    destruct (truthyNum (toTeamUserId input)) eqn:T.
    2:{ rewrite (resolveDelegate_absent input w T) in R. discriminate R. }
    apply truthyNum_true in T. destruct T as [n [E N]].
    destruct (find (fun u => user_id u =? n) (users w)) as [u|] eqn:F.
    { rewrite (resolveDelegate_found input w n u E N F) in R. discriminate R. }
    destruct (Prisma.fitsInt4 n) eqn:Fit.
    - rewrite (resolveDelegate_missing input w n E N F Fit) in R. inversion R.
      eapply DelegateNotFound; eauto.
    - rewrite (resolveDelegate_refused input w n E N F Fit) in R. inversion R.
      eapply DelegateIdRefused; eauto. }
  pose proof (resolveDelegate_world _ _ _ _ R) as ->.
  run.
  destruct (find (conflictWhere _ _ _) (entries w)) as [x|] eqn:C.
  { eapply OwnConflict; eauto. }
  destruct (find (redirectBackWhere _ _ _ _) (entries w)) as [x|] eqn:I.
  { eapply InfiniteRedirect; eauto. }
  unfold Prisma.entry_create.
  destruct (existsb _ (entries w)) eqn:U.
  { eapply UuidTaken; eauto. }
  match goal with
  | |- context [notifyDelegateWith reliable ?c ?t ?r ?v] =>
      change (notifyDelegateWith reliable c t r v) with (notifyDelegate c t r v);
      destruct (notifyDelegate_run c t r v) as [w' [N [Hu [He Hn]]]]; rewrite N
  end.
  simpl in Hu, He, Hn.
  eapply Created; eauto.
Qed.


Lemma create_success_row env ctx input w w' :
  outOfOfficeCreate env ctx input w = (inr tt, w') ->
  exists sd ed to,
    startDate input = Some sd /\ endDate input = Some ed
    /\ resolveDelegate input w = (inr to, w)
    /\ users w' = users w
    /\ entries w' = entries w ++ [createdRow env ctx w sd ed to]
    /\ nextId w' = nextId w + 1.
Proof.
  intros H. pose proof (outOfOfficeCreate_outcome env ctx input w) as O.
  rewrite H in O. inversion O; subst. exists sd, ed, to. auto 10.
Qed.

(** ** The where-clauses as propositions *)

Lemma conflictWhere_spec caller ns ne x :
  conflictWhere caller ns ne x = true
  <-> userId x = caller
      /\ ((start x < ne /\ end_ x > ns)
          \/ (ns < start x /\ start x < ne)
          \/ (ns < end_ x /\ end_ x < ne)).
Proof.
  unfold conflictWhere.
  rewrite andb_true_iff, !orb_true_iff, !andb_true_iff.
  rewrite Z.eqb_eq, !Z.ltb_lt, !Z.gtb_gt. lia.
Qed.

Lemma optZ_eqb_spec a b : Prisma.optZ_eqb a b = true <-> a = Some b.
Proof.
  destruct a as [x|]; simpl.
  - rewrite Z.eqb_eq. split; [intros ->; reflexivity | intros E; inversion E; reflexivity].
  - split; discriminate.
Qed.

Lemma redirectBackWhere_spec to caller ns ne x :
  redirectBackWhere to caller ns ne x = true
  <-> (forall d, to = Some d -> userId x = d)
      /\ toUserId x = Some caller
      /\ ((start x <= ne /\ end_ x >= ns) \/ (start x >= ns /\ end_ x <= ne)).
Proof.
  unfold redirectBackWhere.
  rewrite !andb_true_iff, orb_true_iff, !andb_true_iff.
  rewrite optZ_eqb_spec, !Z.leb_le, !Z.geb_le.
  destruct to as [d|].
  - rewrite Z.eqb_eq. split.
    + intros [[Ho T] W]. repeat split; auto.
      * intros d' E. inversion E. subst. reflexivity.
      * lia.
    + intros [Ho [T W]]. repeat split; auto. lia.
  - split.
    + intros [[_ T] W]. repeat split; auto; [discriminate | lia].
    + intros [_ [T W]]. repeat split; auto. lia.
Qed.

Lemma find_is_some {A} (f : A -> bool) l x :
  In x l -> f x = true -> exists y, find f l = Some y.
Proof.
  intros I F. destruct (find f l) as [y|] eqn:E; [eauto|].
  rewrite (find_none f l E x I) in F. discriminate.
Qed.

Lemma find_is_none {A} (f : A -> bool) l :
  (forall x, In x l -> f x = false) -> find f l = None.
Proof.
  intros H. destruct (find f l) as [y|] eqn:E; [|reflexivity].
  apply find_some in E. destruct E as [I F]. rewrite (H y I) in F. discriminate.
Qed.

Lemma delegateKnown_resolves input w :
  delegateKnown input w -> exists to, resolveDelegate input w = (inr to, w).
Proof.
  intros K. destruct (truthyNum (toTeamUserId input)) eqn:T.
  - apply truthyNum_true in T. destruct T as [n [E N]].
    destruct (K n E N) as [u [I U]].
    destruct (find_is_some (fun u => user_id u =? n) (users w) u I) as [v F].
    { apply Z.eqb_eq. exact U. }
    exists (Some n). eapply resolveDelegate_found; eauto.
  - exists None. apply resolveDelegate_absent. exact T.
Qed.

Lemma delegateKnown_not_missing input w n :
  delegateKnown input w -> toTeamUserId input = Some n -> n <> 0 ->
  find (fun u => user_id u =? n) (users w) = None -> False.
Proof.
  intros K E N F. destruct (K n E N) as [u [I U]].
  apply (find_none _ _ F) in I. apply Z.eqb_neq in I. contradiction.
Qed.

(** Closes the branches of an outcome that the hypotheses rule out. *)
Ltac same_dates :=
  repeat match goal with
  | H1 : startDate ?i = Some ?a, H2 : startDate ?i = Some ?b |- _ =>
      assert (a = b) by congruence; subst; clear H2
  | H1 : endDate ?i = Some ?a, H2 : endDate ?i = Some ?b |- _ =>
      assert (a = b) by congruence; subst; clear H2
  | H1 : resolveDelegate ?i ?w = (inr ?a, _), H2 : resolveDelegate ?i ?w = (inr ?b, _) |- _ =>
      assert (a = b) by congruence; subst; clear H2
  end.

Ltac absurd_outcome :=
  same_dates;
  try lia;
  try congruence;
  try (exfalso; eapply delegateKnown_not_missing; eassumption);
  try match goal with
  | R : resolveDelegate ?i ?w = (inr _, _), E : toTeamUserId ?i = Some ?n,
    N : ?n <> 0, F : find _ (users ?w) = None |- _ =>
      destruct (resolveDelegate_unfound i w n E N F) as [? Unfound];
      rewrite Unfound in R; discriminate R
  end;
  try match goal with
  | H : _ \/ _ |- _ => destruct H; congruence
  end.

(** * The claims *)

(** C1.  A caller who already owns an entry that the three-way predicate
    (full overlap, contained start, contained end) matches against the new
    normalized window gets no new entry: the call fails and leaves the
    database as it was; once the date checks pass and the named delegate
    exists, the failure is CONFLICT. *)
Theorem C1_overlapping_own_entry_is_conflict env ctx input w sd ed x :
  startDate input = Some sd -> endDate input = Some ed ->
  In x (entries w) -> userId x = ctx_id ctx ->
  ((start x < endOfDay (tz env) ed /\ end_ x > startOfDay (tz env) sd)
   \/ (startOfDay (tz env) sd < start x /\ start x < endOfDay (tz env) ed)
   \/ (startOfDay (tz env) sd < end_ x /\ end_ x < endOfDay (tz env) ed)) ->
  (exists e, outOfOfficeCreate env ctx input w = (inl e, w))
  /\ (startOfDay (tz env) sd <= endOfDay (tz env) ed ->
      earliestStart env (tz env) <= startOfDay (tz env) sd ->
      delegateKnown input w ->
      outOfOfficeCreate env ctx input w
      = (inl (mkError CONFLICT "out_of_office_entry_already_exists"), w)).
Proof.
  intros Es Ee I U V.
  destruct (find_is_some
              (conflictWhere (ctx_id ctx) (startOfDay (tz env) sd) (endOfDay (tz env) ed))
              (entries w) x I) as [y F].
  { apply conflictWhere_spec. auto. }
  pose proof (outOfOfficeCreate_outcome env ctx input w) as Out.
  split.
  - destruct (outOfOfficeCreate env ctx input w) as [[e|[]] w'].
    + exists e. inversion Out; try reflexivity; absurd_outcome.
    + inversion Out; absurd_outcome.
  - intros D P K.
    inversion Out; try reflexivity; absurd_outcome.
Qed.

(** The specification's example: Alice is away 2024-01-10 to 2024-01-15 and
    asks for 2024-01-12 to 2024-01-20. *)
Lemma C1_example_witness :
  outOfOfficeCreate (utcServer (utcTime 2024 1 5 9 0) "u-2") alice
    (mkInput (Some (utcDate 2024 1 12)) (Some (utcDate 2024 1 20)) None)
    (mkWorld people [rowOf 1 "u-1" (utcDate 2024 1 10) (utcDate 2024 1 15) 1 None] 2 [])
  = (inl (mkError CONFLICT "out_of_office_entry_already_exists"),
     mkWorld people [rowOf 1 "u-1" (utcDate 2024 1 10) (utcDate 2024 1 15) 1 None] 2 []).
Proof.
  refine (proj2 (C1_overlapping_own_entry_is_conflict
            (utcServer (utcTime 2024 1 5 9 0) "u-2") alice
            (mkInput (Some (utcDate 2024 1 12)) (Some (utcDate 2024 1 20)) None)
            (mkWorld people [rowOf 1 "u-1" (utcDate 2024 1 10) (utcDate 2024 1 15) 1 None] 2 [])
            (utcDate 2024 1 12) (utcDate 2024 1 20)
            (rowOf 1 "u-1" (utcDate 2024 1 10) (utcDate 2024 1 15) 1 None)
            eq_refl eq_refl _ eq_refl _) _ _ _).
  - simpl. left. reflexivity.
  - left. vm_compute. split; reflexivity.
  - vm_compute. discriminate.
  - vm_compute. discriminate.
  - intros n E. discriminate E.
Defined.

(** C2.  When step 5 resolved the named delegate [d] and the earlier checks
    pass: a row of [d] that redirects to the caller and shares an instant
    with the new normalized window makes the call fail with BAD_REQUEST
    (infinite redirect), the database untouched; if every row of [d] that
    redirects to the caller lies wholly before or wholly after the new
    window, the cycle query finds nothing and the call inserts the entry. *)
Theorem C2_redirect_back_is_rejected env ctx input w sd ed d :
  startDate input = Some sd -> endDate input = Some ed ->
  resolveDelegate input w = (inr (Some d), w) ->
  startOfDay (tz env) sd <= endOfDay (tz env) ed ->
  earliestStart env (tz env) <= startOfDay (tz env) sd ->
  (forall y, In y (entries w) ->
     conflictWhere (ctx_id ctx) (startOfDay (tz env) sd) (endOfDay (tz env) ed) y = false) ->
  ((exists x, In x (entries w) /\ userId x = d /\ toUserId x = Some (ctx_id ctx)
      /\ start x <= endOfDay (tz env) ed /\ startOfDay (tz env) sd <= end_ x) ->
   outOfOfficeCreate env ctx input w
   = (inl (mkError BAD_REQUEST "booking_redirect_infinite_not_allowed"), w))
  /\ ((forall x, In x (entries w) -> userId x = d -> toUserId x = Some (ctx_id ctx) ->
         wellFormed x
         /\ (end_ x < startOfDay (tz env) sd \/ endOfDay (tz env) ed < start x)) ->
      find (redirectBackWhere (Some d) (ctx_id ctx)
              (startOfDay (tz env) sd) (endOfDay (tz env) ed)) (entries w) = None
      /\ (existsb (fun x => String.eqb (uuid x) (uuidv4 env)) (entries w) = false ->
          exists w', outOfOfficeCreate env ctx input w = (inr tt, w')
            /\ entries w' = entries w ++ [createdRow env ctx w sd ed (Some d)])).
Proof.
  intros Es Ee R D P NoC.
  pose proof (find_is_none _ _ NoC) as FC.
  pose proof (outOfOfficeCreate_outcome env ctx input w) as Out.
  split.
  - intros [x [I [U [T [L G]]]]].
    destruct (find_is_some
                (redirectBackWhere (Some d) (ctx_id ctx)
                   (startOfDay (tz env) sd) (endOfDay (tz env) ed))
                (entries w) x I) as [y F].
    { apply redirectBackWhere_spec. repeat split; auto.
      - intros d' E. inversion E. subst. reflexivity.
      - left. lia. }
    inversion Out; try reflexivity; absurd_outcome.
  - intros Dis.
    assert (F : find (redirectBackWhere (Some d) (ctx_id ctx)
                        (startOfDay (tz env) sd) (endOfDay (tz env) ed))
                  (entries w) = None).
    { apply find_is_none. intros x I.
      destruct (redirectBackWhere _ _ _ _ x) eqn:B; [|reflexivity].
      apply redirectBackWhere_spec in B. destruct B as [Ow [T W]].
      destruct (Dis x I (Ow d eq_refl) T) as [WF G].
      unfold wellFormed in WF. lia. }
    split; [exact F|].
    intros Fresh.
    destruct (outOfOfficeCreate env ctx input w) as [[e|[]] w'].
    + inversion Out; absurd_outcome.
    + exists w'. split; [reflexivity|].
      inversion Out. same_dates. assumption.
Qed.

(** The specification's example: Alice redirects to Bob from 2024-02-01 to
    2024-02-05; Bob then asks to redirect to Alice, once for 2024-02-03 to
    2024-02-08 and once for 2024-03-01 to 2024-03-05. *)
Lemma C2_example_witness :
  outOfOfficeCreate (utcServer (utcTime 2024 1 5 9 0) "u-2") bob
    (mkInput (Some (utcDate 2024 2 3)) (Some (utcDate 2024 2 8)) (Some 1))
    (mkWorld people [rowOf 1 "u-1" (utcDate 2024 2 1) (utcDate 2024 2 5) 1 (Some 2)] 2 [])
  = (inl (mkError BAD_REQUEST "booking_redirect_infinite_not_allowed"),
     mkWorld people [rowOf 1 "u-1" (utcDate 2024 2 1) (utcDate 2024 2 5) 1 (Some 2)] 2 [])
  /\ exists w',
       outOfOfficeCreate (utcServer (utcTime 2024 1 5 9 0) "u-2") bob
         (mkInput (Some (utcDate 2024 3 1)) (Some (utcDate 2024 3 5)) (Some 1))
         (mkWorld people [rowOf 1 "u-1" (utcDate 2024 2 1) (utcDate 2024 2 5) 1 (Some 2)] 2 [])
       = (inr tt, w')
       /\ entries w'
          = [rowOf 1 "u-1" (utcDate 2024 2 1) (utcDate 2024 2 5) 1 (Some 2);
             mkEntry 2 "u-2" (utcDate 2024 3 1) (utcDate 2024 3 6 - 1) 2 (Some 1)
               (utcTime 2024 1 5 9 0) (utcTime 2024 1 5 9 0)].
Proof.
  split.
  - refine (proj1 (C2_redirect_back_is_rejected
              (utcServer (utcTime 2024 1 5 9 0) "u-2") bob
              (mkInput (Some (utcDate 2024 2 3)) (Some (utcDate 2024 2 8)) (Some 1))
              (mkWorld people
                 [rowOf 1 "u-1" (utcDate 2024 2 1) (utcDate 2024 2 5) 1 (Some 2)] 2 [])
              (utcDate 2024 2 3) (utcDate 2024 2 8) 1
              eq_refl eq_refl eq_refl _ _ _) _).
    + vm_compute. discriminate.
    + vm_compute. discriminate.
    + intros y [<-|[]]. reflexivity.
    + eexists. split; [left; reflexivity|].
      repeat split; vm_compute; discriminate.
  - refine (proj2 (proj2 (C2_redirect_back_is_rejected
              (utcServer (utcTime 2024 1 5 9 0) "u-2") bob
              (mkInput (Some (utcDate 2024 3 1)) (Some (utcDate 2024 3 5)) (Some 1))
              (mkWorld people
                 [rowOf 1 "u-1" (utcDate 2024 2 1) (utcDate 2024 2 5) 1 (Some 2)] 2 [])
              (utcDate 2024 3 1) (utcDate 2024 3 5) 1
              eq_refl eq_refl eq_refl _ _ _) _) eq_refl).
    + vm_compute. discriminate.
    + vm_compute. discriminate.
    + intros y [<-|[]]. reflexivity.
    + intros x [<-|[]] _ _. split.
      * vm_compute. discriminate.
      * left. vm_compute. reflexivity.
Defined.

(** ** The date checks *)

(** The shift of line 40 is [|offset| * 60] minutes: sixty times the offset
    that [utcOffset()] reports in minutes. *)
Lemma earliestStart_shift env off :
  earliestStart env off
  = startOfDay (tz env) (now env) - 60 * (Z.abs off * MS_PER_MINUTE).
Proof. unfold earliestStart, subtractMinutes. lia. Qed.

Lemma earliestStart_utc env :
  tz env = 0 -> earliestStart env (tz env) = startOfDay 0 (now env).
Proof. intros E. rewrite earliestStart_shift, E. simpl. lia. Qed.

(** The code's threshold is never later than "today at start-of-day minus
    the absolute offset", so a start at or after the latter passes. *)
Lemma earliestStart_le_offset_shift env :
  earliestStart env (tz env)
  <= subtractMinutes (startOfDay (tz env) (now env)) (Z.abs (tz env)).
Proof.
  unfold earliestStart, subtractMinutes, MS_PER_MINUTE.
  pose proof (Z.abs_nonneg (tz env)). lia.
Qed.

(** Line 36-44 fires exactly below [earliestStart]. *)
Lemma create_rejects_start_before_earliest env ctx input w sd ed :
  startDate input = Some sd -> endDate input = Some ed ->
  startOfDay (tz env) sd < earliestStart env (tz env) ->
  exists m, outOfOfficeCreate env ctx input w = (inl (mkError BAD_REQUEST m), w).
Proof.
  intros Es Ee P.
  pose proof (outOfOfficeCreate_outcome env ctx input w) as Out.
  inversion Out; try (eexists; reflexivity); absurd_outcome.
Qed.

Lemma create_past_check_iff env ctx input w sd ed :
  startDate input = Some sd -> endDate input = Some ed ->
  startOfDay (tz env) sd <= endOfDay (tz env) ed ->
  (outOfOfficeCreate env ctx input w
   = (inl (mkError BAD_REQUEST "start_date_must_be_in_the_future"), w)
   <-> startOfDay (tz env) sd < earliestStart env (tz env)).
Proof.
  intros Es Ee D.
  pose proof (outOfOfficeCreate_outcome env ctx input w) as Out.
  split.
  - intros H. rewrite H in Out. inversion Out; same_dates; assumption.
  - intros P. inversion Out; try reflexivity; absurd_outcome.
Qed.

(** On a server whose zone is UTC the shift is nil, and a start before
    today's midnight is refused. *)
Lemma create_rejects_past_start_utc env ctx input w sd ed :
  tz env = 0 ->
  startDate input = Some sd -> endDate input = Some ed ->
  startOfDay 0 sd
  < subtractMinutes (startOfDay 0 (now env)) (Z.abs (utcOffset (tz env) (startOfDay 0 sd))) ->
  exists m, outOfOfficeCreate env ctx input w = (inl (mkError BAD_REQUEST m), w).
Proof.
  intros Z0 Es Ee P.
  apply (create_rejects_start_before_earliest env ctx input w sd ed Es Ee).
  rewrite earliestStart_utc by exact Z0. rewrite Z0.
  unfold utcOffset, subtractMinutes in P. rewrite Z0 in P. simpl in P. lia.
Qed.

(** C3.  On a server one hour east of UTC, at noon UTC of 2024-01-10: the
    instant "today at start-of-day, shifted back by the absolute offset" is
    2024-01-09T22:00Z, and a request starting on 2024-01-08 (local midnight
    2024-01-07T23:00Z) lies strictly before it; the call nevertheless
    inserts the entry, because line 40 shifts by sixty hours. *)
Theorem C3_tolerance_is_sixty_times_the_offset :
  let env := mkEnv (utcTime 2024 1 10 12 0) 60 "u-1" in
  let input := mkInput (Some (utcTime 2024 1 8 12 0)) (Some (utcTime 2024 1 12 12 0)) None in
  let w := mkWorld people [] 1 [] in
  let inputStartTime := startOfDay (tz env) (utcTime 2024 1 8 12 0) in
  inputStartTime = utcTime 2024 1 7 23 0
  /\ subtractMinutes (startOfDay (tz env) (now env))
       (Z.abs (utcOffset (tz env) inputStartTime)) = utcTime 2024 1 9 22 0
  /\ earliestStart env (utcOffset (tz env) inputStartTime) = utcTime 2024 1 7 11 0
  /\ outOfOfficeCreate env alice input w
     = (inr tt,
        mkWorld people
          [mkEntry 1 "u-1" (utcTime 2024 1 7 23 0) (utcTime 2024 1 12 23 0 - 1) 1 None
             (utcTime 2024 1 10 12 0) (utcTime 2024 1 10 12 0)]
          2 []).
Proof. vm_compute. repeat split. Qed.

(** C4, as first worded, fails: a start at 15:00 and an end at 10:00 of the
    same day are both moved to the ends of that day, and the entry is
    inserted. *)
Lemma C4_counterexample_same_day :
  utcTime 2024 1 10 10 0 < utcTime 2024 1 10 15 0
  /\ outOfOfficeCreate (utcServer (utcTime 2024 1 10 8 0) "u-1") alice
       (mkInput (Some (utcTime 2024 1 10 15 0)) (Some (utcTime 2024 1 10 10 0)) None)
       (mkWorld people [] 1 [])
     = (inr tt,
        mkWorld people
          [mkEntry 1 "u-1" (utcDate 2024 1 10) (utcDate 2024 1 11 - 1) 1 None
             (utcTime 2024 1 10 8 0) (utcTime 2024 1 10 8 0)]
          2 []).
Proof. vm_compute. split; reflexivity. Qed.

(** C4.  When [startDate] at start-of-day is after [endDate] at end-of-day,
    which is when [startDate] lies on a later local day than [endDate] (so
    in particular after it), the call fails with BAD_REQUEST and the
    database is untouched. *)
Theorem C4_start_on_later_day_is_rejected env ctx input w sd ed :
  startDate input = Some sd -> endDate input = Some ed ->
  isAfter (startOfDay (tz env) sd) (endOfDay (tz env) ed) = true ->
  outOfOfficeCreate env ctx input w
  = (inl (mkError BAD_REQUEST "start_date_must_be_before_end_date"), w)
  /\ startOfDay (tz env) ed + MS_PER_DAY <= sd
  /\ ed < sd.
Proof.
  intros Es Ee A.
  pose proof A as A'. apply isAfter_normalized in A'.
  pose proof (proj1 (later_day_iff _ _ _) A') as L.
  pose proof (startOfDay_bounds (tz env) ed) as B.
  unfold isAfter in A. apply Z.ltb_lt in A.
  pose proof (outOfOfficeCreate_outcome env ctx input w) as Out.
  split; [|split; lia].
  inversion Out; try reflexivity; absurd_outcome.
Qed.

Lemma C4_example_witness :
  outOfOfficeCreate (utcServer (utcTime 2024 1 5 9 0) "u-1") alice
    (mkInput (Some (utcDate 2024 1 20)) (Some (utcDate 2024 1 12)) None)
    (mkWorld people [] 1 [])
  = (inl (mkError BAD_REQUEST "start_date_must_be_before_end_date"),
     mkWorld people [] 1 []).
Proof.
  exact (proj1 (C4_start_on_later_day_is_rejected
           (utcServer (utcTime 2024 1 5 9 0) "u-1") alice
           (mkInput (Some (utcDate 2024 1 20)) (Some (utcDate 2024 1 12)) None)
           (mkWorld people [] 1 [])
           (utcDate 2024 1 20) (utcDate 2024 1 12) eq_refl eq_refl eq_refl)).
Defined.

(** For requests that carry whole local days (each date already at its own
    start-of-day), "start after end" and the test of line 30 agree. *)
Lemma create_rejects_reversed_calendar_dates env ctx input w sd ed :
  startDate input = Some sd -> endDate input = Some ed ->
  startOfDay (tz env) sd = sd -> startOfDay (tz env) ed = ed ->
  ed < sd ->
  outOfOfficeCreate env ctx input w
  = (inl (mkError BAD_REQUEST "start_date_must_be_before_end_date"), w).
Proof.
  intros Es Ee Ms Me L.
  assert (A : isAfter (startOfDay (tz env) sd) (endOfDay (tz env) ed) = true).
  { apply isAfter_normalized. lia. }
  unfold isAfter in A. apply Z.ltb_lt in A.
  pose proof (outOfOfficeCreate_outcome env ctx input w) as Out.
  inversion Out; try reflexivity; absurd_outcome.
Qed.

(** ** The delegate *)

(** C7, as first worded, fails: the identity 0 is given and no user has it,
    yet line 48 reads it as absent and the entry is inserted without a
    delegate. *)
Lemma C7_counterexample_zero_identity :
  toTeamUserId (mkInput (Some (utcDate 2024 1 12)) (Some (utcDate 2024 1 20)) (Some 0))
  = Some 0
  /\ (forall u, In u people -> user_id u <> 0)
  /\ outOfOfficeCreate (utcServer (utcTime 2024 1 5 9 0) "u-1") alice
       (mkInput (Some (utcDate 2024 1 12)) (Some (utcDate 2024 1 20)) (Some 0))
       (mkWorld people [] 1 [])
     = (inr tt,
        mkWorld people
          [mkEntry 1 "u-1" (utcDate 2024 1 12) (utcDate 2024 1 21 - 1) 1 None
             (utcTime 2024 1 5 9 0) (utcTime 2024 1 5 9 0)]
          2 []).
Proof.
  split; [reflexivity|]. split.
  - intros u [<-|[<-|[]]]; simpl; lia.
  - vm_compute. reflexivity.
Qed.

(** C7.  With a [toTeamUserId] that is not zero and fits the store's 32-bit
    id column, and the date checks passed: if no user has that identity the
    call fails with NOT_FOUND and the database is untouched; if one has,
    every entry the call creates names that user as its delegate. *)
Theorem C7_delegate_is_resolved env ctx input w sd ed n :
  startDate input = Some sd -> endDate input = Some ed ->
  toTeamUserId input = Some n -> n <> 0 ->
  Prisma.INT4_MIN <= n <= Prisma.INT4_MAX ->
  startOfDay (tz env) sd <= endOfDay (tz env) ed ->
  earliestStart env (tz env) <= startOfDay (tz env) sd ->
  ((forall u, In u (users w) -> user_id u <> n) ->
   outOfOfficeCreate env ctx input w = (inl (mkError NOT_FOUND "user_not_found"), w))
  /\ ((exists u, In u (users w) /\ user_id u = n) ->
      forall w', outOfOfficeCreate env ctx input w = (inr tt, w') ->
        entries w' = entries w ++ [createdRow env ctx w sd ed (Some n)]
        /\ toUserId (createdRow env ctx w sd ed (Some n)) = Some n).
Proof.
  intros Es Ee T N Range D P.
  assert (Fit : Prisma.fitsInt4 n = true).
  { unfold Prisma.fitsInt4. apply andb_true_iff. rewrite !Z.leb_le. exact Range. }
  pose proof (outOfOfficeCreate_outcome env ctx input w) as Out.
  split.
  - intros No.
    assert (F : find (fun u => user_id u =? n) (users w) = None).
    { apply find_is_none. intros u I. apply Z.eqb_neq. auto. }
    pose proof (resolveDelegate_missing input w n T N F Fit) as R.
    inversion Out; try reflexivity; absurd_outcome.
  - intros [u [I U]] w' H.
    destruct (find_is_some (fun u => user_id u =? n) (users w) u I) as [v F].
    { apply Z.eqb_eq. exact U. }
    pose proof (resolveDelegate_found input w n v T N F) as R.
    rewrite H in Out. inversion Out. same_dates. split; [assumption|reflexivity].
Qed.

(** Alice names user 7, whom the store does not know. *)
Lemma C7_example_witness :
  outOfOfficeCreate (utcServer (utcTime 2024 1 5 9 0) "u-1") alice
    (mkInput (Some (utcDate 2024 1 12)) (Some (utcDate 2024 1 20)) (Some 7))
    (mkWorld people [] 1 [])
  = (inl (mkError NOT_FOUND "user_not_found"), mkWorld people [] 1 []).
Proof.
  refine (proj1 (C7_delegate_is_resolved
            (utcServer (utcTime 2024 1 5 9 0) "u-1") alice
            (mkInput (Some (utcDate 2024 1 12)) (Some (utcDate 2024 1 20)) (Some 7))
            (mkWorld people [] 1 [])
            (utcDate 2024 1 12) (utcDate 2024 1 20) 7
            eq_refl eq_refl eq_refl _ _ _ _) _).
  - discriminate.
  - unfold Prisma.INT4_MIN, Prisma.INT4_MAX. lia.
  - vm_compute. discriminate.
  - vm_compute. discriminate.
  - intros u [<-|[<-|[]]]; simpl; lia.
Defined.

(** An identity outside the id column, held by no user, is not answered
    with NOT_FOUND: the lookup itself is refused, and nothing is written. *)
Lemma create_refuses_delegate_out_of_range env ctx input w sd ed n :
  startDate input = Some sd -> endDate input = Some ed ->
  toTeamUserId input = Some n ->
  (n < Prisma.INT4_MIN \/ Prisma.INT4_MAX < n) ->
  startOfDay (tz env) sd <= endOfDay (tz env) ed ->
  earliestStart env (tz env) <= startOfDay (tz env) sd ->
  (forall u, In u (users w) -> user_id u <> n) ->
  outOfOfficeCreate env ctx input w
  = (inl (mkError INTERNAL_SERVER_ERROR "value_out_of_range_for_int"), w).
Proof.
  intros Es Ee T Range D P No.
  assert (N : n <> 0) by (unfold Prisma.INT4_MIN, Prisma.INT4_MAX in Range; lia).
  assert (Fit : Prisma.fitsInt4 n = false).
  { unfold Prisma.fitsInt4. apply andb_false_iff. rewrite !Z.leb_gt. lia. }
  assert (F : find (fun u => user_id u =? n) (users w) = None).
  { apply find_is_none. intros u I. apply Z.eqb_neq. auto. }
  pose proof (resolveDelegate_refused input w n T N F Fit) as R.
  pose proof (outOfOfficeCreate_outcome env ctx input w) as Out.
  inversion Out; try reflexivity; absurd_outcome.
Qed.

Example delegate_two_to_the_31 :
  outOfOfficeCreate (utcServer (utcTime 2024 1 5 9 0) "u-1") alice
    (mkInput (Some (utcDate 2024 1 12)) (Some (utcDate 2024 1 20)) (Some 2147483648))
    (mkWorld people [] 1 [])
  = (inl (mkError INTERNAL_SERVER_ERROR "value_out_of_range_for_int"),
     mkWorld people [] 1 []).
Proof. vm_compute. reflexivity. Qed.

(** A successful call with a non-zero delegate: Alice names Bob. *)
Example create_names_delegate :
  exists w',
    outOfOfficeCreate (utcServer (utcTime 2024 1 5 9 0) "u-1") alice
      (mkInput (Some (utcDate 2024 1 12)) (Some (utcDate 2024 1 20)) (Some 2))
      (mkWorld people [] 1 [])
    = (inr tt, w')
    /\ map toUserId (entries w') = [Some 2]
    /\ map toEmail (outbox w') = ["bob@example.com"%string].
Proof. eexists. vm_compute. repeat split. Qed.

(** C9.  With [toTeamUserId] absent (or zero, which line 48 reads the same
    way) the cycle query has no owner filter: once the earlier checks pass,
    a row of any user that redirects to the caller and shares at least one
    instant with the new normalized window makes the call fail with
    BAD_REQUEST (infinite redirect), the database untouched. *)
Theorem C9_cycle_check_without_delegate env ctx input w sd ed x :
  startDate input = Some sd -> endDate input = Some ed ->
  truthyNum (toTeamUserId input) = false ->
  startOfDay (tz env) sd <= endOfDay (tz env) ed ->
  earliestStart env (tz env) <= startOfDay (tz env) sd ->
  (forall y, In y (entries w) ->
     conflictWhere (ctx_id ctx) (startOfDay (tz env) sd) (endOfDay (tz env) ed) y = false) ->
  In x (entries w) ->
  toUserId x = Some (ctx_id ctx) ->
  start x <= endOfDay (tz env) ed -> startOfDay (tz env) sd <= end_ x ->
  outOfOfficeCreate env ctx input w
  = (inl (mkError BAD_REQUEST "booking_redirect_infinite_not_allowed"), w).
Proof.
  intros Es Ee T D P NoC I To L G.
  pose proof (find_is_none _ _ NoC) as FC.
  pose proof (resolveDelegate_absent input w T) as R.
  destruct (find_is_some
              (redirectBackWhere None (ctx_id ctx)
                 (startOfDay (tz env) sd) (endOfDay (tz env) ed))
              (entries w) x I) as [y F].
  { apply redirectBackWhere_spec. repeat split; auto; [discriminate | left; lia]. }
  pose proof (outOfOfficeCreate_outcome env ctx input w) as Out.
  inversion Out; try reflexivity; absurd_outcome.
Qed.

(** Bob redirects to Alice from 2024-02-01 to 2024-02-05; Alice asks for
    2024-02-03 to 2024-02-08 and names nobody. *)
Lemma C9_example_witness :
  outOfOfficeCreate (utcServer (utcTime 2024 1 5 9 0) "u-2") alice
    (mkInput (Some (utcDate 2024 2 3)) (Some (utcDate 2024 2 8)) None)
    (mkWorld people [rowOf 1 "u-1" (utcDate 2024 2 1) (utcDate 2024 2 5) 2 (Some 1)] 2 [])
  = (inl (mkError BAD_REQUEST "booking_redirect_infinite_not_allowed"),
     mkWorld people [rowOf 1 "u-1" (utcDate 2024 2 1) (utcDate 2024 2 5) 2 (Some 1)] 2 []).
Proof.
  refine (C9_cycle_check_without_delegate
            (utcServer (utcTime 2024 1 5 9 0) "u-2") alice
            (mkInput (Some (utcDate 2024 2 3)) (Some (utcDate 2024 2 8)) None)
            (mkWorld people
               [rowOf 1 "u-1" (utcDate 2024 2 1) (utcDate 2024 2 5) 2 (Some 1)] 2 [])
            (utcDate 2024 2 3) (utcDate 2024 2 8)
            (rowOf 1 "u-1" (utcDate 2024 2 1) (utcDate 2024 2 5) 2 (Some 1))
            eq_refl eq_refl eq_refl _ _ _ _ eq_refl _ _).
  - vm_compute. discriminate.
  - vm_compute. discriminate.
  - intros y [<-|[]]. reflexivity.
  - left. reflexivity.
  - vm_compute. discriminate.
  - vm_compute. discriminate.
Defined.

(** With a delegate named, the same row of a third user is not looked at:
    Alice names user 3 and the call goes through. *)
Example cycle_check_with_delegate_filters_owner :
  fst (outOfOfficeCreate (utcServer (utcTime 2024 1 5 9 0) "u-2") alice
         (mkInput (Some (utcDate 2024 2 3)) (Some (utcDate 2024 2 8)) (Some 3))
         (mkWorld (people ++ [mkUser 3 "carol@example.com" None])
            [rowOf 1 "u-1" (utcDate 2024 2 1) (utcDate 2024 2 5) 2 (Some 1)] 2 []))
  = inr tt.
Proof. vm_compute. reflexivity. Qed.

(** ** The two overlap tests *)

(** C10.  On a stored window that does not end before it starts, the
    three-branch test of the self-conflict query is the single strict test
    [start < newEnd] and [end > newStart] (its second and third branches
    add nothing); a window of the caller that only shares a boundary
    instant with the new one is therefore no conflict, while the cycle
    query, whose comparisons are inclusive, matches such a window. *)
Theorem C10_three_branches_are_one_strict_test caller ns ne x :
  wellFormed x ->
  conflictWhere caller ns ne x = (userId x =? caller) && strictOverlap ns ne x
  /\ (((start x >? ns) && (start x <? ne) = true -> strictOverlap ns ne x = true)
      /\ ((end_ x >? ns) && (end_ x <? ne) = true -> strictOverlap ns ne x = true))
  /\ (end_ x = ns \/ start x = ne -> conflictWhere caller ns ne x = false)
  /\ (end_ x = ns \/ start x = ne -> ns <= ne -> toUserId x = Some caller ->
      redirectBackWhere (Some (userId x)) caller ns ne x = true
      /\ redirectBackWhere None caller ns ne x = true).
Proof.
  unfold wellFormed. intros WF.
  assert (Sub2 : (start x >? ns) && (start x <? ne) = true -> strictOverlap ns ne x = true).
  { unfold strictOverlap. rewrite !andb_true_iff, !Z.gtb_gt, !Z.ltb_lt. lia. }
  assert (Sub3 : (end_ x >? ns) && (end_ x <? ne) = true -> strictOverlap ns ne x = true).
  { unfold strictOverlap. rewrite !andb_true_iff, !Z.gtb_gt, !Z.ltb_lt. lia. }
  assert (Eq : conflictWhere caller ns ne x = (userId x =? caller) && strictOverlap ns ne x).
  { unfold conflictWhere. f_equal. fold (strictOverlap ns ne x).
    destruct (strictOverlap ns ne x) eqn:S; [reflexivity|]. simpl.
    destruct ((start x >? ns) && (start x <? ne)) eqn:B2.
    { discriminate (Sub2 eq_refl). }
    destruct ((end_ x >? ns) && (end_ x <? ne)) eqn:B3.
    { discriminate (Sub3 eq_refl). }
    reflexivity. }
  split; [exact Eq|]. split; [split; assumption|]. split.
  - intros Touch. rewrite Eq.
    assert (S : strictOverlap ns ne x = false).
    { unfold strictOverlap. apply andb_false_iff. rewrite Z.ltb_ge, Z.gtb_ltb, Z.ltb_ge. lia. }
    rewrite S. apply andb_false_r.
  - intros Touch Le To. split; apply redirectBackWhere_spec; repeat split; auto;
      try discriminate; try (left; lia).
    intros d E. inversion E. reflexivity.
Qed.

(** A row from 2024-01-10T00:00Z to 2024-01-12T00:00Z against a new window
    that starts at 2024-01-12T00:00Z. *)
Lemma C10_example_witness :
  conflictWhere 1 (utcDate 2024 1 12) (utcDate 2024 1 13 - 1)
    (mkEntry 1 "u-1" (utcDate 2024 1 10) (utcDate 2024 1 12) 1 (Some 1) 0 0) = false
  /\ redirectBackWhere None 1 (utcDate 2024 1 12) (utcDate 2024 1 13 - 1)
       (mkEntry 1 "u-1" (utcDate 2024 1 10) (utcDate 2024 1 12) 1 (Some 1) 0 0) = true.
Proof.
  assert (WF : wellFormed (mkEntry 1 "u-1" (utcDate 2024 1 10) (utcDate 2024 1 12) 1 (Some 1) 0 0)).
  { vm_compute. discriminate. }
  destruct (C10_three_branches_are_one_strict_test 1
              (utcDate 2024 1 12) (utcDate 2024 1 13 - 1)
              (mkEntry 1 "u-1" (utcDate 2024 1 10) (utcDate 2024 1 12) 1 (Some 1) 0 0) WF)
    as [_ [_ [NoConflict Cycle]]].
  split.
  - apply NoConflict. left. reflexivity.
  - apply Cycle; [left; reflexivity | vm_compute; discriminate | reflexivity].
Defined.

(** The side condition of C10 is needed: on a row that ends before it
    starts, the second branch matches where the strict test does not. *)
Remark malformed_row_splits_the_branches :
  conflictWhere 1 1 10 (mkEntry 1 "u-1" 5 0 1 None 0 0) = true
  /\ strictOverlap 1 10 (mkEntry 1 "u-1" 5 0 1 None 0 0) = false.
Proof. split; reflexivity. Qed.

(** ** Listing *)

Lemma insertDesc_perm x l : Permutation (x :: l) (insertDesc x l).
Proof.
  induction l as [|y l IH]; simpl.
  - apply Permutation_refl.
  - destruct (start y <=? start x).
    + apply Permutation_refl.
    + eapply perm_trans; [apply perm_swap|]. apply perm_skip. exact IH.
Qed.

Lemma orderByStartDesc_perm l : Permutation l (orderByStartDesc l).
Proof.
  induction l as [|x l IH]; simpl.
  - apply perm_nil.
  - eapply perm_trans; [apply perm_skip; exact IH|]. apply insertDesc_perm.
Qed.

Lemma insertDesc_sorted x l :
  StronglySorted startsNoEarlier l -> StronglySorted startsNoEarlier (insertDesc x l).
Proof.
  induction l as [|y l IH]; simpl; intros S.
  - constructor; [constructor | constructor].
  - inversion S as [|? ? S' F]; subst.
    destruct (start y <=? start x) eqn:C.
    + apply Z.leb_le in C. constructor; [exact S|].
      constructor; [exact C|].
      eapply Forall_impl; [|exact F].
      intros z Hz. unfold startsNoEarlier in *. lia.
    + apply Z.leb_gt in C. constructor; [apply IH; exact S'|].
      eapply Permutation_Forall; [apply insertDesc_perm|].
      constructor; [unfold startsNoEarlier; lia | exact F].
Qed.

Lemma orderByStartDesc_sorted l : StronglySorted startsNoEarlier (orderByStartDesc l).
Proof.
  induction l as [|x l IH]; simpl.
  - constructor.
  - apply insertDesc_sorted. exact IH.
Qed.

Lemma listWhere_spec caller t x :
  listWhere caller t x = true <-> userId x = caller /\ t <= end_ x.
Proof.
  unfold listWhere. rewrite andb_true_iff, Z.eqb_eq, Z.geb_le. tauto.
Qed.

Lemma entry_findMany_In env caller w x :
  In x (entry_findMany env caller w)
  <-> In x (entries w) /\ userId x = caller /\ now env <= end_ x.
Proof.
  unfold entry_findMany. split.
  - intros I.
    apply (Permutation_in x (Permutation_sym (orderByStartDesc_perm _))) in I.
    apply filter_In in I. destruct I as [I W]. apply listWhere_spec in W. tauto.
  - intros [I W]. apply (Permutation_in x (orderByStartDesc_perm _)).
    apply filter_In. split; [exact I|]. apply listWhere_spec. exact W.
Qed.

(** C5.  The listing leaves the database alone and returns the selected
    columns of exactly the caller's entries whose end is not before the
    current instant (each such row once for each time it is stored), newest
    start first; no returned row ends before the current instant; a row
    carries the entry's id, uuid, start, end and delegate identity, and the
    username of the delegate when the entry has one. *)
Theorem C5_list_current_entries_newest_first env ctx w :
  outOfOfficeEntriesList env ctx w
  = (inr (map (selectListed (users w)) (entry_findMany env (ctx_id ctx) w)), w)
  /\ Permutation (entry_findMany env (ctx_id ctx) w)
       (filter (fun x => (userId x =? ctx_id ctx) && (now env <=? end_ x)) (entries w))
  /\ StronglySorted startsNoEarlier (entry_findMany env (ctx_id ctx) w)
  /\ (forall x, In x (entry_findMany env (ctx_id ctx) w)
        <-> In x (entries w) /\ userId x = ctx_id ctx /\ now env <= end_ x)
  /\ (forall r, In r (map (selectListed (users w)) (entry_findMany env (ctx_id ctx) w)) ->
        now env <= l_end r
        /\ exists x, In x (entries w) /\ userId x = ctx_id ctx
             /\ l_id r = id x /\ l_uuid r = uuid x
             /\ l_start r = start x /\ l_end r = end_ x
             /\ l_toUserId r = toUserId x
             /\ (toUserId x = None -> l_toUser r = None)
             /\ (forall d u, toUserId x = Some d ->
                   find (fun u => user_id u =? d) (users w) = Some u ->
                   l_toUser r = Some (mkToUser (user_username u)))).
Proof.
  split; [reflexivity|]. split; [|split; [|split]].
  - unfold entry_findMany. apply Permutation_sym.
    eapply perm_trans; [|apply orderByStartDesc_perm].
    erewrite filter_ext; [apply Permutation_refl|].
    intros x. unfold listWhere. rewrite Z.geb_leb. reflexivity.
  - apply orderByStartDesc_sorted.
  - apply entry_findMany_In.
  - intros r I. apply in_map_iff in I. destruct I as [x [E I]].
    apply entry_findMany_In in I. destruct I as [I [U T]].
    subst r. simpl. split; [exact T|].
    exists x. repeat split; auto.
    + intros N. unfold selectToUser. rewrite N. reflexivity.
    + intros d u D F. unfold selectToUser. rewrite D, F. reflexivity.
Qed.

(** Alice's three entries and one of Bob's, listed for Alice on
    2024-02-10: the January entry has ended, the March one comes first. *)
Example list_example :
  let w := mkWorld people
             [rowOf 1 "u-1" (utcDate 2024 1 10) (utcDate 2024 1 15) 1 None;
              rowOf 2 "u-2" (utcDate 2024 2 8) (utcDate 2024 2 12) 1 (Some 2);
              rowOf 3 "u-3" (utcDate 2024 3 1) (utcDate 2024 3 5) 2 (Some 1);
              rowOf 4 "u-4" (utcDate 2024 3 1) (utcDate 2024 3 5) 1 (Some 9)] 5 [] in
  outOfOfficeEntriesList (utcServer (utcTime 2024 2 10 9 0) "u-5") alice w
  = (inr [mkListed 4 "u-4" (utcDate 2024 3 1) (utcDate 2024 3 6 - 1) (Some 9) None;
          mkListed 2 "u-2" (utcDate 2024 2 8) (utcDate 2024 2 13 - 1) (Some 2)
            (Some (mkToUser (Some "bob"%string)))],
     w).
Proof. vm_compute. reflexivity. Qed.

(** ** Deleting *)

Lemma ownedUuidWhere_spec uid caller x :
  ownedUuidWhere uid caller x = true <-> uuid x = uid /\ userId x = caller.
Proof.
  unfold ownedUuidWhere. rewrite andb_true_iff, String.eqb_eq, Z.eqb_eq. tauto.
Qed.

Lemma existsb_uuid l u :
  existsb (fun x => String.eqb (uuid x) u) l = true <-> exists x, In x l /\ uuid x = u.
Proof.
  rewrite existsb_exists. split; intros [x [I E]]; exists x; split; auto;
    apply String.eqb_eq; exact E.
Qed.

(** With [uuid] a unique column, deleting by [uuid] takes out one row. *)
Lemma filter_out_unique_uuid l x :
  NoDup (map uuid l) -> In x l ->
  Permutation l (x :: filter (fun y => negb (String.eqb (uuid y) (uuid x))) l).
Proof.
  induction l as [|y l IH]; simpl; intros N I; [contradiction|].
  inversion N as [|? ? NI N']; subst.
  destruct I as [->|I].
  - rewrite String.eqb_refl. simpl. apply perm_skip.
    rewrite forallb_filter_id; [apply Permutation_refl|].
    apply forallb_forall. intros z Iz. apply negb_true_iff.
    apply String.eqb_neq. intros E. apply NI. rewrite <- E.
    apply in_map. exact Iz.
  - assert (D : String.eqb (uuid y) (uuid x) = false).
    { apply String.eqb_neq. intros E. apply NI. rewrite E. apply in_map. exact I. }
    rewrite D. simpl. eapply perm_trans; [|apply perm_swap].
    apply perm_skip. apply IH; assumption.
Qed.

(** C6.  A missing (absent or empty) identifier is BAD_REQUEST; an
    identifier that no entry of the caller carries, whether no entry has it
    or its entry belongs to someone else, is NOT_FOUND; every failure leaves
    the database, and so every owner's listing, as it was; an identifier of
    one of the caller's entries removes the rows with that uuid, which under
    the unique-uuid constraint is that one entry, and returns the empty
    payload. *)
Theorem C6_delete_checks_identifier_and_owner ctx input w :
  (truthyStr (outOfOfficeUid input) = false ->
   outOfOfficeEntryDelete ctx input w
   = (inl (mkError BAD_REQUEST "out_of_office_id_required"), w))
  /\ (forall uid, outOfOfficeUid input = Some uid -> uid <> EmptyString ->
        ((forall x, In x (entries w) -> uuid x = uid -> userId x <> ctx_id ctx) ->
         outOfOfficeEntryDelete ctx input w
         = (inl (mkError NOT_FOUND "booking_redirect_not_found"), w))
        /\ (forall x, In x (entries w) -> uuid x = uid -> userId x = ctx_id ctx ->
              outOfOfficeEntryDelete ctx input w
              = (inr tt,
                 mkWorld (users w)
                   (filter (fun y => negb (String.eqb (uuid y) uid)) (entries w))
                   (nextId w) (outbox w))
              /\ ~ In x (filter (fun y => negb (String.eqb (uuid y) uid)) (entries w))
              /\ (NoDup (map uuid (entries w)) ->
                  Permutation (entries w)
                    (x :: filter (fun y => negb (String.eqb (uuid y) uid)) (entries w)))))
  /\ (forall e w', outOfOfficeEntryDelete ctx input w = (inl e, w') ->
        w' = w
        /\ forall env owner,
             outOfOfficeEntriesList env owner w' = outOfOfficeEntriesList env owner w).
Proof.
  split; [|split].
  - intros T. unfold outOfOfficeEntryDelete. rewrite T. reflexivity.
  - intros uid E N.
    assert (T : truthyStr (outOfOfficeUid input) = true).
    { rewrite E. simpl. apply negb_true_iff. apply String.eqb_neq. exact N. }
    unfold outOfOfficeEntryDelete. rewrite T, E. simpl. run. split.
    + intros No.
      rewrite (find_is_none (ownedUuidWhere uid (ctx_id ctx)) (entries w)); [reflexivity|].
      intros x I. destruct (ownedUuidWhere uid (ctx_id ctx) x) eqn:W; [|reflexivity].
      apply ownedUuidWhere_spec in W. destruct W as [U O]. destruct (No x I U O).
    + intros x I U Ow.
      destruct (find_is_some (ownedUuidWhere uid (ctx_id ctx)) (entries w) x I) as [y F].
      { apply ownedUuidWhere_spec. auto. }
      rewrite F. unfold Prisma.entry_delete.
      rewrite (proj2 (existsb_uuid (entries w) uid)) by (exists x; auto).
      split; [reflexivity|]. split.
      * intros J. apply filter_In in J. destruct J as [_ J].
        apply negb_true_iff in J. apply String.eqb_neq in J. contradiction.
      * intros ND. subst uid. apply filter_out_unique_uuid; assumption.
  - intros e w' H. assert (W : w' = w).
    { unfold outOfOfficeEntryDelete in H.
      destruct (negb (truthyStr (outOfOfficeUid input))); run.
      - inversion H. reflexivity.
      - destruct (find _ (entries w)) as [y|] eqn:F.
        + apply find_some in F. destruct F as [Iy Fy].
          apply ownedUuidWhere_spec in Fy. destruct Fy as [Uy _].
          unfold Prisma.entry_delete in H.
          rewrite (proj2 (existsb_uuid (entries w) _)) in H by (exists y; auto).
          discriminate H.
        + inversion H. reflexivity. }
    split; [exact W|]. intros env owner. rewrite W. reflexivity.
Qed.

(** Bob asks to delete Alice's entry and is refused; Alice still sees it;
    Alice's own request removes it. *)
Lemma C6_example_witness :
  let w := mkWorld people
             [rowOf 1 "u-1" (utcDate 2024 2 1) (utcDate 2024 2 5) 1 (Some 2)] 2 [] in
  outOfOfficeEntryDelete bob (mkDelete (Some "u-1"%string)) w
  = (inl (mkError NOT_FOUND "booking_redirect_not_found"), w)
  /\ outOfOfficeEntryDelete alice (mkDelete (Some "u-1"%string)) w
     = (inr tt, mkWorld people [] 2 [])
  /\ outOfOfficeEntryDelete alice (mkDelete None) w
     = (inl (mkError BAD_REQUEST "out_of_office_id_required"), w).
Proof.
  cbv zeta. split; [|split].
  - refine (proj1 (proj1 (proj2 (C6_delete_checks_identifier_and_owner bob
              (mkDelete (Some "u-1"%string))
              (mkWorld people
                 [rowOf 1 "u-1" (utcDate 2024 2 1) (utcDate 2024 2 5) 1 (Some 2)] 2 [])))
              "u-1"%string eq_refl _) _).
    + discriminate.
    + intros x [<-|[]] _. simpl. lia.
  - refine (proj1 (proj2 (proj1 (proj2 (C6_delete_checks_identifier_and_owner alice
              (mkDelete (Some "u-1"%string))
              (mkWorld people
                 [rowOf 1 "u-1" (utcDate 2024 2 1) (utcDate 2024 2 5) 1 (Some 2)] 2 [])))
              "u-1"%string eq_refl _)
              (rowOf 1 "u-1" (utcDate 2024 2 1) (utcDate 2024 2 5) 1 (Some 2))
              _ eq_refl eq_refl)).
    + discriminate.
    + left. reflexivity.
  - exact (proj1 (C6_delete_checks_identifier_and_owner alice (mkDelete None)
              (mkWorld people
                 [rowOf 1 "u-1" (utcDate 2024 2 1) (utcDate 2024 2 5) 1 (Some 2)] 2 []))
             eq_refl).
Defined.

(** ** Create, then list *)

(** C8.  After a call that succeeds, the caller's listing, taken at any
    instant up to the entry's end, holds a row whose start is [startDate] at
    start-of-day and whose end is [endDate] at end-of-day. *)
Theorem C8_created_entry_is_listed env ctx input w w' sd ed env' :
  startDate input = Some sd -> endDate input = Some ed ->
  outOfOfficeCreate env ctx input w = (inr tt, w') ->
  now env' <= endOfDay (tz env) ed ->
  exists rows r,
    outOfOfficeEntriesList env' ctx w' = (inr rows, w')
    /\ In r rows
    /\ l_start r = startOfDay (tz env) sd
    /\ l_end r = endOfDay (tz env) ed
    /\ l_uuid r = uuidv4 env.
Proof.
  intros Es Ee H T.
  destruct (create_success_row env ctx input w w' H)
    as [sd' [ed' [to [Es' [Ee' [R [Hu [He Hn]]]]]]]].
  same_dates.
  exists (map (selectListed (users w')) (entry_findMany env' (ctx_id ctx) w')).
  exists (selectListed (users w') (createdRow env ctx w sd' ed' to)).
  split; [reflexivity|]. split; [|repeat split].
  apply in_map. apply entry_findMany_In. rewrite He. split.
  - apply in_or_app. right. left. reflexivity.
  - simpl. split; [reflexivity | exact T].
Qed.

(** Alice lists on 2024-01-18 what she created on 2024-01-05. *)
Lemma C8_example_witness :
  exists rows r,
    outOfOfficeEntriesList (utcServer (utcTime 2024 1 18 9 0) "u-2") alice afterAliceCreates
    = (inr rows, afterAliceCreates)
    /\ In r rows
    /\ l_start r = startOfDay 0 (utcTime 2024 1 12 14 30)
    /\ l_end r = endOfDay 0 (utcTime 2024 1 20 8 0)
    /\ l_uuid r = "u-1"%string.
Proof.
  refine (C8_created_entry_is_listed
            (utcServer (utcTime 2024 1 5 9 0) "u-1") alice
            (mkInput (Some (utcTime 2024 1 12 14 30)) (Some (utcTime 2024 1 20 8 0)) (Some 2))
            (mkWorld people [] 1 []) afterAliceCreates
            (utcTime 2024 1 12 14 30) (utcTime 2024 1 20 8 0)
            (utcServer (utcTime 2024 1 18 9 0) "u-2")
            eq_refl eq_refl _ _).
  - vm_compute. reflexivity.
  - vm_compute. discriminate.
Defined.

Example create_then_list_example :
  outOfOfficeEntriesList (utcServer (utcTime 2024 1 18 9 0) "u-2") alice afterAliceCreates
  = (inr [mkListed 1 "u-1" (utcDate 2024 1 12) (utcDate 2024 1 21 - 1) (Some 2)
            (Some (mkToUser (Some "bob"%string)))],
     afterAliceCreates).
Proof. vm_compute. reflexivity. Qed.

(** ** What the handlers keep true of the tables *)

(** A created window is a proper one. *)
Lemma created_row_wellFormed env ctx w sd ed to :
  startOfDay (tz env) sd <= endOfDay (tz env) ed ->
  start (createdRow env ctx w sd ed to) < end_ (createdRow env ctx w sd ed to).
Proof.
  simpl. intros D.
  pose proof (startOfDay_decomp (tz env) sd) as Hs.
  pose proof (startOfDay_decomp (tz env) ed) as He.
  unfold endOfDay in *. unfold MS_PER_DAY in *. lia.
Qed.

Lemma create_keeps_storeOk env ctx input w r w' :
  storeOk w -> outOfOfficeCreate env ctx input w = (r, w') -> storeOk w'.
Proof.
  intros [Nu [Ni B]] H.
  pose proof (outOfOfficeCreate_outcome env ctx input w) as Out.
  rewrite H in Out.
  inversion Out; subst; try (repeat split; assumption).
  { unfold storeOk. simpl. repeat split; try assumption.
    eapply Forall_impl; [|exact B]. simpl. intros; lia. }
  match goal with
  | Hn : nextId w' = _, He : entries w' = _, Hx : existsb _ _ = false |- _ =>
      rename Hn into Next; rename He into Ent; rename Hx into Fresh
  end.
  unfold storeOk. rewrite Ent, Next, !map_app. simpl.
  rewrite Forall_forall in B.
  repeat split.
  - apply NoDup_app_remove_l with (l := []). simpl.
    apply Permutation_NoDup with (l := uuidv4 env :: map uuid (entries w)).
    + apply Permutation_cons_append.
    + constructor; [|exact Nu].
      intros I. apply in_map_iff in I. destruct I as [x [E I]].
      assert (X : existsb (fun x => String.eqb (uuid x) (uuidv4 env)) (entries w) = true).
      { apply existsb_uuid. eauto. }
      congruence.
  - apply Permutation_NoDup with (l := nextId w :: map id (entries w)).
    + apply Permutation_cons_append.
    + constructor; [|exact Ni].
      intros I. apply in_map_iff in I. destruct I as [x [E I]].
      specialize (B x I). lia.
  - apply Forall_app. split.
    + apply Forall_forall. intros x I. specialize (B x I). lia.
    + constructor; [simpl; lia | constructor].
Qed.

Lemma delete_keeps_storeOk ctx input w r w' :
  storeOk w -> outOfOfficeEntryDelete ctx input w = (r, w') -> storeOk w'.
Proof.
  intros [Nu [Ni B]] H.
  unfold outOfOfficeEntryDelete in H.
  destruct (negb (truthyStr (outOfOfficeUid input))); run.
  { inversion H; subst. repeat split; assumption. }
  destruct (find _ (entries w)).
  2:{ inversion H; subst. repeat split; assumption. }
  unfold Prisma.entry_delete in H.
  destruct (existsb _ (entries w)).
  2:{ inversion H; subst. repeat split; assumption. }
  inversion H; subst. unfold storeOk. simpl.
  set (keep := fun x : OutOfOfficeEntry => _).
  assert (Sub : forall {B} (f : OutOfOfficeEntry -> B) l,
            NoDup (map f l) -> NoDup (map f (filter keep l))).
  { intros B0 f l. induction l as [|y l IH]; simpl; intros N; [constructor|].
    inversion N as [|? ? NI N']; subst.
    destruct (keep y); simpl; [|apply IH; exact N'].
    constructor; [|apply IH; exact N'].
    intros I. apply NI. apply in_map_iff in I. destruct I as [z [E I]].
    apply filter_In in I. destruct I as [I _].
    rewrite <- E. apply in_map. exact I. }
  repeat split.
  - apply Sub. exact Nu.
  - apply Sub. exact Ni.
  - apply Forall_forall. intros x I. apply filter_In in I. destruct I as [I _].
    rewrite Forall_forall in B. apply B. exact I.
Qed.

(** * Further properties of the handlers *)

(** ** The notification, case by case (line 149-171) *)

Lemma notifyDelegate_absent ctx to row w :
  truthyNum to = false -> notifyDelegate ctx to row w = (inr tt, w).
Proof.
  intros T. unfold notifyDelegate, notifyDelegateWith. rewrite T. reflexivity.
Qed.

Lemma notifyDelegate_sent ctx d u row w :
  d <> 0 ->
  find (fun u => user_id u =? d) (users w) = Some u ->
  user_email u <> EmptyString ->
  notifyDelegate ctx (Some d) row w
  = (inr tt,
     mkWorld (users w) (entries w) (nextId w) (outbox w ++ [redirectNotice ctx u row])).
Proof.
  intros N F E. unfold notifyDelegate, notifyDelegateWith, truthyNum.
  apply Z.eqb_neq in N. rewrite N. cbv [negb].
  change (orElse (Some d) 0) with d. run. simpl. rewrite F.
  unfold truthyStr. apply String.eqb_neq in E. rewrite E. reflexivity.
Qed.

Lemma notifyDelegate_silent ctx d row w :
  d <> 0 ->
  (find (fun u => user_id u =? d) (users w) = None
   \/ exists u, find (fun u => user_id u =? d) (users w) = Some u
                /\ user_email u = EmptyString) ->
  notifyDelegate ctx (Some d) row w = (inr tt, w).
Proof.
  intros N H. unfold notifyDelegate, notifyDelegateWith, truthyNum.
  apply Z.eqb_neq in N. rewrite N. cbv [negb].
  change (orElse (Some d) 0) with d. run. simpl.
  destruct H as [F|[u [F E]]]; rewrite F; [reflexivity|].
  unfold truthyStr. rewrite E. reflexivity.
Qed.


(** The call that passes every check is the insert followed by the
    notification, whatever the collaborators do. *)
Lemma createWith_run_inserted c env ctx input w sd ed to :
  startDate input = Some sd -> endDate input = Some ed ->
  startOfDay (tz env) sd <= endOfDay (tz env) ed ->
  earliestStart env (tz env) <= startOfDay (tz env) sd ->
  resolveDelegate input w = (inr to, w) ->
  find (conflictWhere (ctx_id ctx) (startOfDay (tz env) sd) (endOfDay (tz env) ed))
    (entries w) = None ->
  find (redirectBackWhere to (ctx_id ctx) (startOfDay (tz env) sd) (endOfDay (tz env) ed))
    (entries w) = None ->
  existsb (fun x => String.eqb (uuid x) (uuidv4 env)) (entries w) = false ->
  outOfOfficeCreateWith c env ctx input w
  = (notifyDelegateWith c ctx to (createdRow env ctx w sd ed to) ;;; ret tt)
      (afterInsert w (createdRow env ctx w sd ed to)).
Proof.
  intros Es Ee D P R C B U.
  unfold outOfOfficeCreateWith. rewrite Es, Ee. cbv zeta. unfold utcOffset.
  apply Z.ltb_ge in D. unfold isAfter. rewrite D.
  apply Z.ltb_ge in P. unfold isBefore. rewrite P.
  unfold bind at 1. rewrite R.
  unfold bind at 1. unfold Prisma.entry_findFirst at 1. unfold gets at 1. rewrite C.
  unfold bind at 1. unfold Prisma.entry_findFirst at 1. unfold gets at 1. rewrite B.
  unfold bind at 1. unfold Prisma.entry_create. rewrite U.
  reflexivity.
Qed.


(** The call that passes every check is the insert followed by the
    notification. *)
Lemma create_run_created env ctx input w sd ed to :
  startDate input = Some sd -> endDate input = Some ed ->
  startOfDay (tz env) sd <= endOfDay (tz env) ed ->
  earliestStart env (tz env) <= startOfDay (tz env) sd ->
  resolveDelegate input w = (inr to, w) ->
  find (conflictWhere (ctx_id ctx) (startOfDay (tz env) sd) (endOfDay (tz env) ed))
    (entries w) = None ->
  find (redirectBackWhere to (ctx_id ctx) (startOfDay (tz env) sd) (endOfDay (tz env) ed))
    (entries w) = None ->
  existsb (fun x => String.eqb (uuid x) (uuidv4 env)) (entries w) = false ->
  outOfOfficeCreate env ctx input w
  = (inr tt,
     snd (notifyDelegate ctx to (createdRow env ctx w sd ed to)
            (afterInsert w (createdRow env ctx w sd ed to)))).
Proof.
  intros Es Ee D P R C B U.
  unfold outOfOfficeCreate.
  rewrite (createWith_run_inserted reliable env ctx input w sd ed to Es Ee D P R C B U).
  change (notifyDelegateWith reliable ctx to (createdRow env ctx w sd ed to))
    with (notifyDelegate ctx to (createdRow env ctx w sd ed to)).
  unfold bind.
  destruct (notifyDelegate_run ctx to (createdRow env ctx w sd ed to)
              (afterInsert w (createdRow env ctx w sd ed to))) as [w' [N _]].
  rewrite N. reflexivity.
Qed.

(** A call that returns has passed every check. *)
Lemma create_success_world env ctx input w w' :
  outOfOfficeCreate env ctx input w = (inr tt, w') ->
  exists sd ed to,
    startDate input = Some sd /\ endDate input = Some ed
    /\ startOfDay (tz env) sd <= endOfDay (tz env) ed
    /\ earliestStart env (tz env) <= startOfDay (tz env) sd
    /\ resolveDelegate input w = (inr to, w)
    /\ find (conflictWhere (ctx_id ctx) (startOfDay (tz env) sd) (endOfDay (tz env) ed))
         (entries w) = None
    /\ find (redirectBackWhere to (ctx_id ctx) (startOfDay (tz env) sd)
               (endOfDay (tz env) ed)) (entries w) = None
    /\ existsb (fun x => String.eqb (uuid x) (uuidv4 env)) (entries w) = false
    /\ w' = snd (notifyDelegate ctx to (createdRow env ctx w sd ed to)
                   (afterInsert w (createdRow env ctx w sd ed to))).
Proof.
  intros H. pose proof (outOfOfficeCreate_outcome env ctx input w) as Out.
  rewrite H in Out. inversion Out; subst.
  exists sd, ed, to. repeat (split; [assumption|]).
  match goal with
  | Es : startDate _ = _, Ee : endDate _ = _, D : _ <= endOfDay _ _,
    P : earliestStart _ _ <= _, R : resolveDelegate _ _ = _,
    C : find (conflictWhere _ _ _) _ = None,
    B : find (redirectBackWhere _ _ _ _) _ = None, U : existsb _ _ = false |- _ =>
      pose proof (create_run_created env ctx input w sd ed to Es Ee D P R C B U) as Run
  end.
  rewrite H in Run. inversion Run. reflexivity.
Qed.

(** ** Missing dates, failures, and what a success leaves behind *)

(** X1.  The call answers BAD_REQUEST "start_date_and_end_date_required",
    with the database untouched, exactly when one of the two dates is
    missing. *)
Theorem X1_dates_required_iff_one_is_missing env ctx input w :
  outOfOfficeCreate env ctx input w
  = (inl (mkError BAD_REQUEST "start_date_and_end_date_required"), w)
  <-> (startDate input = None \/ endDate input = None).
Proof.
  pose proof (outOfOfficeCreate_outcome env ctx input w) as Out.
  split.
  - intros H. rewrite H in Out. inversion Out. assumption.
  - intros M. inversion Out; try reflexivity; destruct M; congruence.
Qed.



(** With the mailer down the call throws the mailer's error, and the row is
    in the table. *)
Example mailer_down_leaves_the_row :
  outOfOfficeCreateWith mailerDown (utcServer (utcTime 2024 1 5 9 0) "u-1") alice
    (mkInput (Some (utcDate 2024 1 12)) (Some (utcDate 2024 1 20)) (Some 2))
    (mkWorld people [] 1 [])
  = (inl (mkError INTERNAL_SERVER_ERROR "smtp_connection_refused"),
     mkWorld people
       [mkEntry 1 "u-1" (utcDate 2024 1 12) (utcDate 2024 1 21 - 1) 1 (Some 2)
          (utcTime 2024 1 5 9 0) (utcTime 2024 1 5 9 0)]
       2 []).
Proof. vm_compute. reflexivity. Qed.

(** X3.  A call that returns has appended exactly one row and touched no
    other: the row carries the generated uuid, the caller as owner and the
    clock reading as both audit stamps; the users are as before, and the
    outbox has grown by at most one message. *)
Theorem X3_successful_create_appends_one_row env ctx input w w' :
  outOfOfficeCreate env ctx input w = (inr tt, w') ->
  exists row,
    entries w' = entries w ++ [row]
    /\ uuid row = uuidv4 env /\ userId row = ctx_id ctx
    /\ createdAt row = now env /\ updatedAt row = now env
    /\ users w' = users w
    /\ (outbox w' = outbox w \/ exists n, outbox w' = outbox w ++ [n]).
Proof.
  intros H.
  destruct (create_success_world env ctx input w w' H)
    as [sd [ed [to [_ [_ [_ [_ [R [_ [_ [_ W]]]]]]]]]]].
  exists (createdRow env ctx w sd ed to). subst w'.
  destruct (truthyNum to) eqn:T.
  - apply truthyNum_true in T. destruct T as [d [-> N]].
    destruct (find (fun u => user_id u =? d) (users w)) as [u|] eqn:F.
    + destruct (string_dec (user_email u) EmptyString) as [E|E].
      * rewrite notifyDelegate_silent; [|exact N|right; exists u; split; assumption].
        simpl. repeat split. left. reflexivity.
      * rewrite (notifyDelegate_sent ctx d u); [|exact N|exact F|exact E].
        simpl. repeat split. right. eexists. reflexivity.
    + rewrite notifyDelegate_silent; [|exact N|left; exact F].
      simpl. repeat split. left. reflexivity.
  - rewrite notifyDelegate_absent by exact T.
    simpl. repeat split. left. reflexivity.
Qed.

Lemma X3_example_witness :
  exists row,
    entries afterAliceCreates = [] ++ [row]
    /\ uuid row = "u-1"%string /\ userId row = 1
    /\ createdAt row = utcTime 2024 1 5 9 0 /\ updatedAt row = utcTime 2024 1 5 9 0
    /\ users afterAliceCreates = people
    /\ (outbox afterAliceCreates = []
        \/ exists n, outbox afterAliceCreates = [] ++ [n]).
Proof.
  refine (X3_successful_create_appends_one_row
            (utcServer (utcTime 2024 1 5 9 0) "u-1") alice
            (mkInput (Some (utcTime 2024 1 12 14 30)) (Some (utcTime 2024 1 20 8 0)) (Some 2))
            (mkWorld people [] 1 []) afterAliceCreates _).
  vm_compute. reflexivity.
Defined.

(** X4.  When a call with a non-zero delegate returns and that user's
    address on file is not empty, exactly one message has been added to the
    outbox: from the caller's address to the delegate's, in the caller's
    locale ("en" when none is set), naming the caller's username (empty
    when none is set) and the normalized start and end of the new entry. *)
Theorem X4_delegate_is_notified env ctx input w w' sd ed d u :
  outOfOfficeCreate env ctx input w = (inr tt, w') ->
  startDate input = Some sd -> endDate input = Some ed ->
  toTeamUserId input = Some d -> d <> 0 ->
  find (fun u => user_id u =? d) (users w) = Some u ->
  user_email u <> EmptyString ->
  outbox w'
  = outbox w
    ++ [mkNotification (orElse (ctx_locale ctx) "en"%string) (ctx_email ctx)
          (user_email u) (orElse (ctx_username ctx) EmptyString)
          (startOfDay (tz env) sd, endOfDay (tz env) ed)].
Proof.
  intros H Es Ee T N F E.
  destruct (create_success_world env ctx input w w' H)
    as [sd' [ed' [to [Es' [Ee' [_ [_ [R [_ [_ [_ W]]]]]]]]]]].
  same_dates.
  rewrite (resolveDelegate_found input w d u T N F) in R. inversion R; subst to.
  rewrite (notifyDelegate_sent ctx d u); [reflexivity|exact N|exact F|exact E].
Qed.

(** Alice names Bob; Bob gets the message. *)
Lemma X4_example_witness :
  outbox afterAliceCreates
  = [] ++ [mkNotification "en" "alice@example.com" "bob@example.com" "alice"
             (startOfDay 0 (utcTime 2024 1 12 14 30), endOfDay 0 (utcTime 2024 1 20 8 0))].
Proof.
  refine (X4_delegate_is_notified
            (utcServer (utcTime 2024 1 5 9 0) "u-1") alice
            (mkInput (Some (utcTime 2024 1 12 14 30)) (Some (utcTime 2024 1 20 8 0)) (Some 2))
            (mkWorld people [] 1 []) afterAliceCreates
            (utcTime 2024 1 12 14 30) (utcTime 2024 1 20 8 0) 2
            (mkUser 2 "bob@example.com" (Some "bob"%string))
            _ eq_refl eq_refl eq_refl _ eq_refl _).
  - vm_compute. reflexivity.
  - discriminate.
  - discriminate.
Defined.

(** X5.  A call that returns sends nothing when no delegate was named
    (absent or zero) or when the delegate's address on file is empty. *)
Theorem X5_no_delegate_no_notification env ctx input w w' :
  outOfOfficeCreate env ctx input w = (inr tt, w') ->
  (truthyNum (toTeamUserId input) = false
   \/ exists d u, toTeamUserId input = Some d
        /\ find (fun u => user_id u =? d) (users w) = Some u
        /\ user_email u = EmptyString) ->
  outbox w' = outbox w.
Proof.
  intros H Q.
  destruct (create_success_world env ctx input w w' H)
    as [sd [ed [to [_ [_ [_ [_ [R [_ [_ [_ W]]]]]]]]]]].
  subst w'. destruct Q as [T|[d [u [T [F E]]]]].
  - rewrite (resolveDelegate_absent input w T) in R. inversion R; subst to.
    reflexivity.
  - destruct (resolveDelegate_value input w to R) as [[-> _]|[n [v [-> [T' [N _]]]]]].
    + reflexivity.
    + assert (n = d) by congruence. subst n.
      rewrite notifyDelegate_silent; [reflexivity|exact N|].
      right. exists u. split; assumption.
Qed.

(** Carol, whose address on file is empty, is named: no message. *)
Lemma X5_example_witness :
  outbox (snd (outOfOfficeCreate (utcServer (utcTime 2024 1 5 9 0) "u-1") alice
                 (mkInput (Some (utcDate 2024 1 12)) (Some (utcDate 2024 1 20)) (Some 3))
                 (mkWorld team [] 1 [])))
  = [].
Proof.
  refine (X5_no_delegate_no_notification
            (utcServer (utcTime 2024 1 5 9 0) "u-1") alice
            (mkInput (Some (utcDate 2024 1 12)) (Some (utcDate 2024 1 20)) (Some 3))
            (mkWorld team [] 1 []) _ _ _).
  - vm_compute. reflexivity.
  - right. exists 3, (mkUser 3 EmptyString None). repeat split.
Defined.

(** ** Days *)

(** X6.  A request whose [startDate] is at or after today's local midnight
    is never refused as "start_date_must_be_in_the_future", whatever the
    server's offset. *)
Theorem X6_start_today_or_later_is_not_past env ctx input w sd ed :
  startDate input = Some sd -> endDate input = Some ed ->
  startOfDay (tz env) (now env) <= sd ->
  fst (outOfOfficeCreate env ctx input w)
  <> inl (mkError BAD_REQUEST "start_date_must_be_in_the_future").
Proof.
  intros Es Ee T.
  assert (P : earliestStart env (tz env) <= startOfDay (tz env) sd).
  { pose proof (startOfDay_mono (tz env) _ _ T) as M.
    rewrite startOfDay_idem in M. rewrite earliestStart_shift.
    pose proof (Z.abs_nonneg (tz env)). unfold MS_PER_MINUTE. lia. }
  pose proof (outOfOfficeCreate_outcome env ctx input w) as Out.
  inversion Out; simpl; try discriminate.
  same_dates. lia.
Qed.

(** On a server five hours west of UTC, in the evening, a request for the
    same local day goes through. *)
Lemma X6_example_witness :
  fst (outOfOfficeCreate (mkEnv (utcTime 2024 1 11 3 0) (-300) "u-1") alice
         (mkInput (Some (utcTime 2024 1 10 6 0)) (Some (utcTime 2024 1 12 6 0)) None)
         (mkWorld people [] 1 []))
  <> inl (mkError BAD_REQUEST "start_date_must_be_in_the_future").
Proof.
  refine (X6_start_today_or_later_is_not_past
            (mkEnv (utcTime 2024 1 11 3 0) (-300) "u-1") alice
            (mkInput (Some (utcTime 2024 1 10 6 0)) (Some (utcTime 2024 1 12 6 0)) None)
            (mkWorld people [] 1 [])
            (utcTime 2024 1 10 6 0) (utcTime 2024 1 12 6 0) eq_refl eq_refl _).
  vm_compute. discriminate.
Defined.

(** X7.  The call looks at the local days of the two dates only: two
    requests whose start dates lie on one local day and whose end dates lie
    on one local day, with the same delegate, have the same result and leave
    the same database. *)
Theorem X7_only_the_local_days_matter env ctx w sd ed sd' ed' t :
  startOfDay (tz env) sd = startOfDay (tz env) sd' ->
  startOfDay (tz env) ed = startOfDay (tz env) ed' ->
  outOfOfficeCreate env ctx (mkInput (Some sd) (Some ed) t) w
  = outOfOfficeCreate env ctx (mkInput (Some sd') (Some ed') t) w.
Proof.
  intros Hs He. unfold outOfOfficeCreate, outOfOfficeCreateWith, resolveDelegate. simpl.
  unfold endOfDay. rewrite Hs, He. reflexivity.
Qed.

Lemma X7_example_witness :
  outOfOfficeCreate (utcServer (utcTime 2024 1 5 9 0) "u-1") alice
    (mkInput (Some (utcTime 2024 1 12 14 30)) (Some (utcTime 2024 1 20 8 0)) (Some 2))
    (mkWorld people [] 1 [])
  = outOfOfficeCreate (utcServer (utcTime 2024 1 5 9 0) "u-1") alice
      (mkInput (Some (utcDate 2024 1 12)) (Some (utcTime 2024 1 20 23 59)) (Some 2))
      (mkWorld people [] 1 []).
Proof.
  refine (X7_only_the_local_days_matter
            (utcServer (utcTime 2024 1 5 9 0) "u-1") alice (mkWorld people [] 1 [])
            (utcTime 2024 1 12 14 30) (utcTime 2024 1 20 8 0)
            (utcDate 2024 1 12) (utcTime 2024 1 20 23 59) (Some 2) _ _);
    vm_compute; reflexivity.
Defined.





(** ** What the handlers keep true of the entries *)



(** What a delete leaves of the entries. *)
Lemma delete_entries ctx input w r w' :
  outOfOfficeEntryDelete ctx input w = (r, w') ->
  entries w' = entries w
  \/ exists uid, outOfOfficeUid input = Some uid /\ r = inr tt
       /\ entries w' = filter (fun y => negb (String.eqb (uuid y) uid)) (entries w).
Proof.
  unfold outOfOfficeEntryDelete.
  destruct (outOfOfficeUid input) as [uid|]; simpl.
  2:{ intros H. inversion H. left. reflexivity. }
  destruct (negb (negb (String.eqb uid EmptyString))); run.
  { intros H. inversion H. left. reflexivity. }
  destruct (find _ (entries w)).
  2:{ intros H. inversion H. left. reflexivity. }
  unfold Prisma.entry_delete. destruct (existsb _ (entries w)).
  - intros H. inversion H. right. exists uid. simpl. auto.
  - intros H. inversion H. left. reflexivity.
Qed.





(** ** One call after another *)

(** X11.  Sending the request that just succeeded a second time, on the
    same server and while its start is still not in the past, fails with
    CONFLICT and leaves the database as the first call left it. *)
Theorem X11_same_request_again_is_conflict env env' ctx input w w' sd :
  outOfOfficeCreate env ctx input w = (inr tt, w') ->
  startDate input = Some sd ->
  tz env' = tz env ->
  earliestStart env' (tz env') <= startOfDay (tz env) sd ->
  outOfOfficeCreate env' ctx input w'
  = (inl (mkError CONFLICT "out_of_office_entry_already_exists"), w').
Proof.
  intros H Es Hz P.
  destruct (create_success_row env ctx input w w' H)
    as [sd' [ed [to [Es' [Ee [R [Hu [He Hn]]]]]]]].
  destruct (create_success_world env ctx input w w' H)
    as [sd2 [ed2 [to2 [Es2 [Ee2 [D _]]]]]].
  assert (sd' = sd) by congruence. assert (sd2 = sd) by congruence.
  assert (ed2 = ed) by congruence. subst sd' sd2 ed2. clear Es' Es2 Ee2.
  assert (K : delegateKnown input w').
  { intros n T N. rewrite Hu.
    destruct (resolveDelegate_value input w to R) as [[_ F]|[m [u [_ [T' [_ [I U]]]]]]].
    - rewrite T in F. simpl in F. apply negb_false_iff in F. apply Z.eqb_eq in F.
      contradiction.
    - exists u. split; [exact I | congruence]. }
  destruct (find_is_some
              (conflictWhere (ctx_id ctx) (startOfDay (tz env') sd) (endOfDay (tz env') ed))
              (entries w') (createdRow env ctx w sd ed to)) as [y F].
  { rewrite He. apply in_or_app. right. left. reflexivity. }
  { apply conflictWhere_spec. simpl. split; [reflexivity|]. left.
    rewrite Hz. unfold endOfDay in *.
    rewrite (startOfDay_decomp (tz env) sd), (startOfDay_decomp (tz env) ed) in *.
    unfold MS_PER_DAY in *. lia. }
  rewrite <- Hz in D, P.
  pose proof (outOfOfficeCreate_outcome env' ctx input w') as Out.
  inversion Out; try reflexivity; absurd_outcome.
Qed.

(** Alice sends again, two days later, what she sent on 2024-01-05. *)
Lemma X11_example_witness :
  outOfOfficeCreate (utcServer (utcTime 2024 1 7 9 0) "u-2") alice
    (mkInput (Some (utcTime 2024 1 12 14 30)) (Some (utcTime 2024 1 20 8 0)) (Some 2))
    afterAliceCreates
  = (inl (mkError CONFLICT "out_of_office_entry_already_exists"), afterAliceCreates).
Proof.
  refine (X11_same_request_again_is_conflict
            (utcServer (utcTime 2024 1 5 9 0) "u-1")
            (utcServer (utcTime 2024 1 7 9 0) "u-2") alice
            (mkInput (Some (utcTime 2024 1 12 14 30)) (Some (utcTime 2024 1 20 8 0)) (Some 2))
            (mkWorld people [] 1 []) afterAliceCreates
            (utcTime 2024 1 12 14 30) _ eq_refl eq_refl _).
  - vm_compute. reflexivity.
  - vm_compute. discriminate.
Defined.

(** X12.  Create, then delete by the generated uuid: when the call returns
    and the uuid is not empty, the caller's delete of that uuid succeeds and
    the entries are again those from before the create; the users are
    untouched. *)
Theorem X12_create_then_delete_restores_entries env ctx input w w' :
  outOfOfficeCreate env ctx input w = (inr tt, w') ->
  uuidv4 env <> EmptyString ->
  exists w'',
    outOfOfficeEntryDelete ctx (mkDelete (Some (uuidv4 env))) w' = (inr tt, w'')
    /\ entries w'' = entries w
    /\ users w'' = users w.
Proof.
  intros H N.
  destruct (create_success_world env ctx input w w' H)
    as [sd [ed [to [_ [_ [_ [_ [_ [_ [_ [U _]]]]]]]]]]].
  destruct (create_success_row env ctx input w w' H)
    as [sd' [ed' [to' [_ [_ [_ [Hu [He _]]]]]]]].
  unfold outOfOfficeEntryDelete. simpl.
  apply String.eqb_neq in N. rewrite N. simpl. run.
  destruct (find_is_some (ownedUuidWhere (uuidv4 env) (ctx_id ctx)) (entries w')
              (createdRow env ctx w sd' ed' to')) as [y F].
  { rewrite He. apply in_or_app. right. left. reflexivity. }
  { apply ownedUuidWhere_spec. split; reflexivity. }
  rewrite F. unfold Prisma.entry_delete.
  rewrite (proj2 (existsb_uuid (entries w') (uuidv4 env))).
  2:{ exists (createdRow env ctx w sd' ed' to'). split; [|reflexivity].
      rewrite He. apply in_or_app. right. left. reflexivity. }
  eexists. split; [reflexivity|]. simpl. split; [|exact Hu].
  rewrite He, filter_app. simpl. rewrite String.eqb_refl. simpl.
  rewrite app_nil_r. apply forallb_filter_id. apply forallb_forall.
  intros x I. apply negb_true_iff.
  destruct (String.eqb (uuid x) (uuidv4 env)) eqn:E; [|reflexivity].
  assert (X : existsb (fun x => String.eqb (uuid x) (uuidv4 env)) (entries w) = true).
  { apply existsb_exists. exists x. auto. }
  congruence.
Qed.

Lemma X12_example_witness :
  exists w'',
    outOfOfficeEntryDelete alice (mkDelete (Some "u-1"%string)) afterAliceCreates
    = (inr tt, w'')
    /\ entries w'' = []
    /\ users w'' = people.
Proof.
  refine (X12_create_then_delete_restores_entries
            (utcServer (utcTime 2024 1 5 9 0) "u-1") alice
            (mkInput (Some (utcTime 2024 1 12 14 30)) (Some (utcTime 2024 1 20 8 0)) (Some 2))
            (mkWorld people [] 1 []) afterAliceCreates _ _).
  - vm_compute. reflexivity.
  - discriminate.
Defined.

(** X14.  After a delete that succeeded, a delete of the same identifier,
    by any caller, fails with NOT_FOUND. *)
Theorem X14_second_delete_is_not_found ctx ctx' input w w' :
  outOfOfficeEntryDelete ctx input w = (inr tt, w') ->
  outOfOfficeEntryDelete ctx' input w'
  = (inl (mkError NOT_FOUND "booking_redirect_not_found"), w').
Proof.
  intros H.
  destruct (delete_entries ctx input w (inr tt) w' H) as [E|[uid [Eu [_ E]]]].
  - exfalso. unfold outOfOfficeEntryDelete in H.
    destruct (negb (truthyStr (outOfOfficeUid input))); run; [discriminate H|].
    destruct (find _ (entries w)); [|discriminate H].
    unfold Prisma.entry_delete in H.
    destruct (existsb _ (entries w)) eqn:X; [|discriminate H].
    inversion H as [W]. rewrite <- W in E. simpl in E.
    apply existsb_exists in X. destruct X as [x [I Ex]].
    rewrite <- E in I. apply filter_In in I. destruct I as [_ I].
    rewrite Ex in I. discriminate I.
  - unfold outOfOfficeEntryDelete in *. rewrite Eu in *. simpl in *.
    destruct (negb (negb (String.eqb uid EmptyString))); run; [discriminate H|].
    rewrite (find_is_none (ownedUuidWhere uid (ctx_id ctx')) (entries w')); [reflexivity|].
    intros x I. rewrite E in I. apply filter_In in I. destruct I as [_ I].
    unfold ownedUuidWhere. apply negb_true_iff in I. rewrite I. reflexivity.
Qed.

Lemma X14_example_witness :
  outOfOfficeEntryDelete bob (mkDelete (Some "u-1"%string)) (mkWorld people [] 2 [])
  = (inl (mkError NOT_FOUND "booking_redirect_not_found"), mkWorld people [] 2 []).
Proof.
  refine (X14_second_delete_is_not_found alice bob (mkDelete (Some "u-1"%string))
            (mkWorld people
               [rowOf 1 "u-1" (utcDate 2024 2 1) (utcDate 2024 2 5) 1 (Some 2)] 2 [])
            (mkWorld people [] 2 []) _).
  vm_compute. reflexivity.
Defined.

(** ** Listings under filtering *)

Lemma insertDesc_head x l :
  Forall (fun z => start z <= start x) l -> insertDesc x l = x :: l.
Proof.
  destruct l as [|y l]; simpl; intros F; [reflexivity|].
  inversion F as [|? ? Hy _]; subst. apply Z.leb_le in Hy. rewrite Hy. reflexivity.
Qed.

Lemma filter_insertDesc_drop (p : OutOfOfficeEntry -> bool) x l :
  p x = false -> filter p (insertDesc x l) = filter p l.
Proof.
  intros Px. induction l as [|y l IH]; simpl.
  - rewrite Px. reflexivity.
  - destruct (start y <=? start x); simpl.
    + rewrite Px. reflexivity.
    + rewrite IH. reflexivity.
Qed.

Lemma filter_insertDesc_keep (p : OutOfOfficeEntry -> bool) x l :
  StronglySorted startsNoEarlier l -> p x = true ->
  filter p (insertDesc x l) = insertDesc x (filter p l).
Proof.
  intros S Px. induction S as [|y l S IH F]; simpl.
  - rewrite Px. reflexivity.
  - destruct (start y <=? start x) eqn:C; simpl.
    + rewrite Px. destruct (p y); simpl.
      * rewrite C. reflexivity.
      * symmetry. apply insertDesc_head.
        apply Z.leb_le in C. apply Forall_forall. intros z I.
        apply filter_In in I. destruct I as [I _].
        rewrite Forall_forall in F. specialize (F z I).
        unfold startsNoEarlier in F. lia.
    + destruct (p y); simpl.
      * rewrite C, IH. reflexivity.
      * exact IH.
Qed.

(** Filtering a sorted listing is sorting the filtered rows. *)
Lemma filter_orderByStartDesc (p : OutOfOfficeEntry -> bool) l :
  filter p (orderByStartDesc l) = orderByStartDesc (filter p l).
Proof.
  induction l as [|x l IH]; simpl; [reflexivity|].
  destruct (p x) eqn:Px; simpl.
  - rewrite filter_insertDesc_keep; [|apply orderByStartDesc_sorted|exact Px].
    rewrite IH. reflexivity.
  - rewrite filter_insertDesc_drop by exact Px. exact IH.
Qed.

Lemma filter_filter_comm {A} (p q : A -> bool) l :
  filter p (filter q l) = filter q (filter p l).
Proof.
  induction l as [|x l IH]; simpl; [reflexivity|].
  destruct (p x) eqn:Px, (q x) eqn:Qx; simpl; rewrite ?Px, ?Qx, IH; reflexivity.
Qed.

(** X13.  After a delete that succeeded, every caller's listing, at any
    instant, is the listing from before the delete with the rows of the
    deleted uuid taken out and the order of the others kept. *)
Theorem X13_delete_takes_the_row_out_of_every_listing ctx input w w' uid :
  outOfOfficeEntryDelete ctx input w = (inr tt, w') ->
  outOfOfficeUid input = Some uid ->
  forall env ctx',
    fst (outOfOfficeEntriesList env ctx' w')
    = inr (filter (fun r => negb (String.eqb (l_uuid r) uid))
             (map (selectListed (users w)) (entry_findMany env (ctx_id ctx') w))).
Proof.
  intros H Eu env ctx'.
  assert (W : users w' = users w
              /\ entries w' = filter (fun y => negb (String.eqb (uuid y) uid)) (entries w)).
  { unfold outOfOfficeEntryDelete in H. rewrite Eu in H. simpl in H.
    destruct (negb (negb (String.eqb uid EmptyString))); run; [discriminate H|].
    destruct (find _ (entries w)); [|discriminate H].
    unfold Prisma.entry_delete in H.
    destruct (existsb _ (entries w)); [|discriminate H].
    inversion H. simpl. auto. }
  destruct W as [Hu He].
  unfold outOfOfficeEntriesList, gets, entry_findMany. simpl.
  rewrite Hu, He. f_equal.
  rewrite filter_map_swap. simpl. f_equal.
  rewrite filter_orderByStartDesc. f_equal.
  apply filter_filter_comm.
Qed.

(** Alice has two rows and deletes the later one. *)
Lemma X13_example_witness :
  fst (outOfOfficeEntriesList (utcServer (utcTime 2024 1 5 9 0) "u-9") alice
         (mkWorld people
            [rowOf 1 "u-1" (utcDate 2024 2 1) (utcDate 2024 2 5) 1 (Some 2)] 3 []))
  = inr (filter (fun r => negb (String.eqb (l_uuid r) "u-2"))
           (map (selectListed people)
              (entry_findMany (utcServer (utcTime 2024 1 5 9 0) "u-9") 1
                 (mkWorld people
                    [rowOf 1 "u-1" (utcDate 2024 2 1) (utcDate 2024 2 5) 1 (Some 2);
                     rowOf 2 "u-2" (utcDate 2024 3 1) (utcDate 2024 3 5) 1 None] 3 [])))).
Proof.
  refine (X13_delete_takes_the_row_out_of_every_listing alice
            (mkDelete (Some "u-2"%string))
            (mkWorld people
               [rowOf 1 "u-1" (utcDate 2024 2 1) (utcDate 2024 2 5) 1 (Some 2);
                rowOf 2 "u-2" (utcDate 2024 3 1) (utcDate 2024 3 5) 1 None] 3 [])
            (mkWorld people
               [rowOf 1 "u-1" (utcDate 2024 2 1) (utcDate 2024 2 5) 1 (Some 2)] 3 [])
            "u-2"%string _ eq_refl
            (utcServer (utcTime 2024 1 5 9 0) "u-9") alice).
  vm_compute. reflexivity.
Defined.

(** X15.  As time passes a listing only loses rows: for the same tables,
    the listing at a later instant is the listing at the earlier instant
    with the rows that have ended by then taken out, the order of the
    others kept. *)
Theorem X15_later_listing_is_earlier_listing_filtered env env' ctx w :
  now env <= now env' ->
  fst (outOfOfficeEntriesList env' ctx w)
  = inr (filter (fun r => now env' <=? l_end r)
           (map (selectListed (users w)) (entry_findMany env (ctx_id ctx) w))).
Proof.
  intros T. unfold outOfOfficeEntriesList, gets, entry_findMany. simpl. f_equal.
  rewrite filter_map_swap. simpl. f_equal.
  rewrite filter_orderByStartDesc. f_equal.
  induction (entries w) as [|x l IH]; simpl; [reflexivity|].
  destruct (listWhere (ctx_id ctx) (now env') x) eqn:A,
           (listWhere (ctx_id ctx) (now env) x) eqn:B; simpl.
  - apply listWhere_spec in A. destruct A as [_ A]. apply Z.leb_le in A.
    rewrite A, IH. reflexivity.
  - apply listWhere_spec in A.
    assert (B' : listWhere (ctx_id ctx) (now env) x = true)
      by (apply listWhere_spec; split; [tauto | lia]).
    congruence.
  - apply listWhere_spec in B. destruct B as [U _].
    destruct (now env' <=? end_ x) eqn:L; [|exact IH].
    apply Z.leb_le in L.
    assert (A' : listWhere (ctx_id ctx) (now env') x = true)
      by (apply listWhere_spec; split; assumption).
    congruence.
  - exact IH.
Qed.

(** Alice's listing on 2024-02-10 against the one of 2024-01-05. *)
Lemma X15_example_witness :
  fst (outOfOfficeEntriesList (utcServer (utcTime 2024 2 10 9 0) "u-9") alice
         (mkWorld people
            [rowOf 1 "u-1" (utcDate 2024 2 1) (utcDate 2024 2 5) 1 (Some 2);
             rowOf 2 "u-2" (utcDate 2024 3 1) (utcDate 2024 3 5) 1 None] 3 []))
  = inr (filter (fun r => utcTime 2024 2 10 9 0 <=? l_end r)
           (map (selectListed people)
              (entry_findMany (utcServer (utcTime 2024 1 5 9 0) "u-9") 1
                 (mkWorld people
                    [rowOf 1 "u-1" (utcDate 2024 2 1) (utcDate 2024 2 5) 1 (Some 2);
                     rowOf 2 "u-2" (utcDate 2024 3 1) (utcDate 2024 3 5) 1 None] 3 [])))).
Proof.
  refine (X15_later_listing_is_earlier_listing_filtered
            (utcServer (utcTime 2024 1 5 9 0) "u-9")
            (utcServer (utcTime 2024 2 10 9 0) "u-9") alice
            (mkWorld people
               [rowOf 1 "u-1" (utcDate 2024 2 1) (utcDate 2024 2 5) 1 (Some 2);
                rowOf 2 "u-2" (utcDate 2024 3 1) (utcDate 2024 3 5) 1 None] 3 []) _).
  vm_compute. discriminate.
Defined.

(** ** Who is affected *)

(** X16.  Nothing stops a caller from naming themselves: with the caller's
    own non-zero identity as delegate, dates that pass the checks, a fresh
    uuid, and the caller's stored (well-formed) rows lying wholly before or
    after the new window, the call returns and the new row redirects its
    owner to its owner. *)
Theorem X16_caller_may_name_themselves env ctx input w sd ed u :
  startDate input = Some sd -> endDate input = Some ed ->
  toTeamUserId input = Some (ctx_id ctx) -> ctx_id ctx <> 0 ->
  In u (users w) -> user_id u = ctx_id ctx ->
  startOfDay (tz env) sd <= endOfDay (tz env) ed ->
  earliestStart env (tz env) <= startOfDay (tz env) sd ->
  (forall x, In x (entries w) -> userId x = ctx_id ctx ->
     wellFormed x
     /\ (end_ x < startOfDay (tz env) sd \/ endOfDay (tz env) ed < start x)) ->
  existsb (fun x => String.eqb (uuid x) (uuidv4 env)) (entries w) = false ->
  exists w' row,
    outOfOfficeCreate env ctx input w = (inr tt, w')
    /\ entries w' = entries w ++ [row]
    /\ toUserId row = Some (userId row).
Proof.
  intros Es Ee T N I U D P Out Fresh.
  destruct (find_is_some (fun u => user_id u =? ctx_id ctx) (users w) u I) as [v F].
  { apply Z.eqb_eq. exact U. }
  pose proof (resolveDelegate_found input w (ctx_id ctx) v T N F) as R.
  assert (C : find (conflictWhere (ctx_id ctx) (startOfDay (tz env) sd)
                      (endOfDay (tz env) ed)) (entries w) = None).
  { apply find_is_none. intros x Ix.
    destruct (conflictWhere _ _ _ x) eqn:B; [|reflexivity].
    apply conflictWhere_spec in B. destruct B as [Ux B].
    destruct (Out x Ix Ux) as [WF G]. unfold wellFormed in WF. lia. }
  assert (B : find (redirectBackWhere (Some (ctx_id ctx)) (ctx_id ctx)
                      (startOfDay (tz env) sd) (endOfDay (tz env) ed)) (entries w) = None).
  { apply find_is_none. intros x Ix.
    destruct (redirectBackWhere _ _ _ _ x) eqn:B; [|reflexivity].
    apply redirectBackWhere_spec in B. destruct B as [Ux [_ B]].
    destruct (Out x Ix (Ux _ eq_refl)) as [WF G]. unfold wellFormed in WF. lia. }
  pose proof (create_run_created env ctx input w sd ed (Some (ctx_id ctx))
                Es Ee D P R C B Fresh) as Run.
  destruct (notifyDelegate_run ctx (Some (ctx_id ctx))
              (createdRow env ctx w sd ed (Some (ctx_id ctx)))
              (afterInsert w (createdRow env ctx w sd ed (Some (ctx_id ctx)))))
    as [w' [Nw [_ [He _]]]].
  rewrite Nw in Run. simpl in Run.
  exists w', (createdRow env ctx w sd ed (Some (ctx_id ctx))).
  split; [exact Run|]. split; [exact He | reflexivity].
Qed.

(** Alice names Alice. *)
Lemma X16_example_witness :
  exists w' row,
    outOfOfficeCreate (utcServer (utcTime 2024 1 5 9 0) "u-1") alice
      (mkInput (Some (utcDate 2024 1 12)) (Some (utcDate 2024 1 20)) (Some 1))
      (mkWorld people [] 1 [])
    = (inr tt, w')
    /\ entries w' = [] ++ [row]
    /\ toUserId row = Some (userId row).
Proof.
  refine (X16_caller_may_name_themselves
            (utcServer (utcTime 2024 1 5 9 0) "u-1") alice
            (mkInput (Some (utcDate 2024 1 12)) (Some (utcDate 2024 1 20)) (Some 1))
            (mkWorld people [] 1 [])
            (utcDate 2024 1 12) (utcDate 2024 1 20)
            (mkUser 1 "alice@example.com" (Some "alice"%string))
            eq_refl eq_refl eq_refl _ _ eq_refl _ _ _ eq_refl).
  - discriminate.
  - left. reflexivity.
  - vm_compute. discriminate.
  - vm_compute. discriminate.
  - intros x [].
Defined.


